(** * acdiag: diagnostics + logging (package [diag], file diag.go)

    A shallow embedding of the dispatch engine of the logging package:
    the five levelled calls, the debug gate, the message formatter with
    its call-site prefix, the sink fan-out, the email path with its
    per-recipient rate limiter, and the configuration store.

    Conventions of the embedding.
    - Go strings are byte strings: [string] (a list of [ascii]).
    - Go [int], [time.Duration] and [syslog.Priority] are [Z]; the
      indices that occur are string positions and -1, far from the
      64-bit bounds.
    - A [time.Time] is its position in nanoseconds on one time line,
      a [Z]; the zero [Time] is 0.  [Time.Add] saturates only outside
      the range of years the clock can return, which is not modelled.
    - [*Diag] values are locations in a heap of [Diag] structs; a nil or
      dangling pointer is a location with no entry and dereferencing it
      panics.
    - A Go map is [option (gmap string _)]: [None] is the nil map.
    - Every function that has effects runs in the monad [M]: it reads
      the runtime (clock, stack introspection, library calls of which
      only the interface is known), threads the package state [World],
      appends to a trace of sink events, and ends normally, by a panic
      or by [os.Exit].
    - The mutex [lock] is not modelled: the semantics is that of one
      goroutine. *)

From Stdlib Require Import ZArith String Ascii DecimalString Bool Lia.
From stdpp Require Import gmap strings list.

Local Open Scope Z_scope.

(** ** Go strings: indexing, slicing, and the [strings] functions used *)

Definition NL : ascii := "010"%char.

Definition len (s : string) : Z := Z.of_nat (String.length s).

(** [s[i]]; [None] stands for the run-time panic "index out of range". *)
Definition index (s : string) (i : Z) : option ascii :=
  if (0 <=? i) && (i <? len s) then String.get (Z.to_nat i) s else None.

(** [s[lo:hi]]; [None] stands for the panic "slice bounds out of range". *)
Definition slice (s : string) (lo hi : Z) : option string :=
  if (0 <=? lo) && (lo <=? hi) && (hi <=? len s)
  then Some (substring (Z.to_nat lo) (Z.to_nat (hi - lo)) s)
  else None.

(** [s[lo:]] *)
Definition slice_from (s : string) (lo : Z) : option string :=
  slice s lo (len s).

(** [strings.LastIndex(s, sep)]: the byte index of the last occurrence
    of [sep] in [s], or -1. *)
Fixpoint LastIndex_from (s sep : string) (i acc : Z) : Z :=
  match s with
  | EmptyString => if String.prefix sep EmptyString then i else acc
  | String _ s' =>
      LastIndex_from s' sep (i + 1) (if String.prefix sep s then i else acc)
  end.

Definition LastIndex (s sep : string) : Z := LastIndex_from s sep 0 (-1).

(** [strings.LastIndexByte(s, c)] *)
Fixpoint LastIndexByte_from (s : string) (c : ascii) (i acc : Z) : Z :=
  match s with
  | EmptyString => acc
  | String a s' =>
      LastIndexByte_from s' c (i + 1) (if Ascii.eqb a c then i else acc)
  end.

Definition LastIndexByte (s : string) (c : ascii) : Z :=
  LastIndexByte_from s c 0 (-1).

Definition isASCII (c : ascii) : bool := (nat_of_ascii c <? 128)%nat.

Definition lowerASCII (c : ascii) : ascii :=
  let n := nat_of_ascii c in
  if ((65 <=? n) && (n <=? 90))%nat then ascii_of_nat (n + 32) else c.

Fixpoint allASCII (s : string) : bool :=
  match s with
  | EmptyString => true
  | String c s' => isASCII c && allASCII s'
  end.

Fixpoint mapBytes (f : ascii -> ascii) (s : string) : string :=
  match s with
  | EmptyString => EmptyString
  | String c s' => String (f c) (mapBytes f s')
  end.

(** [strconv.Itoa], also what the verb [%d] prints for an [int]. *)
Definition Itoa (n : Z) : string := NilZero.string_of_int (Z.to_int n).

(** ** Values passed through [...interface{}] and the [fmt] fragment *)

Inductive value : Type :=
  | VStr (s : string)
  | VInt (n : Z)
  | VOther (tag : nat).

(** What one verb prints for one operand, for the verbs and operand
    types of the fragment: [%s] and [%v] of a string, [%d] and [%v] of
    an int. *)
Definition verb (v : ascii) (a : value) : option string :=
  match a with
  | VStr s => if Ascii.eqb v "s" || Ascii.eqb v "v" then Some s else None
  | VInt n => if Ascii.eqb v "d" || Ascii.eqb v "v" then Some (Itoa n) else None
  | VOther _ => None
  end.

(** [fmt.Sprintf] on the fragment whose behaviour is modelled: literal
    text, [%%], and the plain verbs above with exactly as many operands
    as verbs.  [None] means the call is outside the fragment (flags,
    widths, other verbs or operand types, missing or extra operands). *)
Fixpoint sprintf_frag (format : string) (args : list value) : option string :=
  match format with
  | EmptyString => match args with [] => Some EmptyString | _ => None end
  | String c rest =>
      if Ascii.eqb c "%" then
        match rest with
        | EmptyString => None
        | String v rest' =>
            if Ascii.eqb v "%" then
              match sprintf_frag rest' args with
              | Some r => Some (String "%" r)
              | None => None
              end
            else
              match args with
              | [] => None
              | a :: args' =>
                  match verb v a, sprintf_frag rest' args' with
                  | Some s, Some r => Some (s +:+ r)
                  | _, _ => None
                  end
              end
        end
      else
        match sprintf_frag rest args with
        | Some r => Some (String c r)
        | None => None
        end
  end.

(** ** Types of the package *)

Definition Time := Z.
Definition Duration := Z.
Definition Priority := Z.

Definition zeroTime : Time := 0.
Definition Time_Add (t : Time) (d : Duration) : Time := t + d.
(** [t.After(u)] *)
Definition Time_After (t u : Time) : bool := u <? t.

Definition Second : Duration := 1000000000.
Definition Minute : Duration := 60 * Second.

(** defaults *)
Definition stackMax : Z := 1048576.
Definition rateLimit : Duration := Minute.

(** [log/syslog]: severities and facilities. *)
Definition LOG_EMERG : Priority := 0.
Definition LOG_ALERT : Priority := 1.
Definition LOG_CRIT : Priority := 2.
Definition LOG_ERR : Priority := 3.
Definition LOG_WARNING : Priority := 4.
Definition LOG_NOTICE : Priority := 5.
Definition LOG_INFO : Priority := 6.
Definition LOG_DEBUG : Priority := 7.

Definition LOG_KERN : Priority := Z.shiftl 0 3.
Definition LOG_USER : Priority := Z.shiftl 1 3.
Definition LOG_MAIL : Priority := Z.shiftl 2 3.
Definition LOG_DAEMON : Priority := Z.shiftl 3 3.
Definition LOG_AUTH : Priority := Z.shiftl 4 3.
Definition LOG_SYSLOG : Priority := Z.shiftl 5 3.
Definition LOG_LPR : Priority := Z.shiftl 6 3.
Definition LOG_NEWS : Priority := Z.shiftl 7 3.
Definition LOG_UUCP : Priority := Z.shiftl 8 3.
Definition LOG_CRON : Priority := Z.shiftl 9 3.
Definition LOG_AUTHPRIV : Priority := Z.shiftl 10 3.
Definition LOG_FTP : Priority := Z.shiftl 11 3.
Definition LOG_LOCAL0 : Priority := Z.shiftl 16 3.
Definition LOG_LOCAL1 : Priority := Z.shiftl 17 3.
Definition LOG_LOCAL2 : Priority := Z.shiftl 18 3.
Definition LOG_LOCAL3 : Priority := Z.shiftl 19 3.
Definition LOG_LOCAL4 : Priority := Z.shiftl 20 3.
Definition LOG_LOCAL5 : Priority := Z.shiftl 21 3.
Definition LOG_LOCAL6 : Priority := Z.shiftl 22 3.
Definition LOG_LOCAL7 : Priority := Z.shiftl 23 3.

(** [*syslog.Writer], as returned by [syslog.New(priority, tag)]. *)
Record Writer : Type := mkWriter {
  w_priority : Priority;
  w_tag : string
}.

Record Diag : Type := mkDiag {
  section : string;
  uplevel : Z;
  mailTo : string;
  mailFrom : string;
  progname : string;
  debugAll : bool;
  useStderr : bool
}.

(** Config configures the logger *)
Record Config : Type := mkConfig {
  MailTo : string;
  MailFrom : string;
  MailRateLimit : Duration;
  Sendmail : string;
  Facility : string;
  ProgName : string;
  Debug : option (gmap string bool)
}.

Record logconf : Type := mkLogconf {
  logprio : Priority;
  toStderr : bool;
  toEmail : bool;
  withInfo : bool;
  withTrace : bool
}.

(** The zero values [Diag{}] and [Config{}]. *)
Definition Diag_zero : Diag :=
  mkDiag EmptyString 0 EmptyString EmptyString EmptyString false false.

Definition Config_zero : Config :=
  mkConfig EmptyString EmptyString 0 EmptyString EmptyString EmptyString None.

(** Field assignments [n.f = e]. *)
Definition set_section (e : string) (d : Diag) : Diag :=
  mkDiag e (uplevel d) (mailTo d) (mailFrom d) (progname d) (debugAll d) (useStderr d).
Definition set_mailTo (e : string) (d : Diag) : Diag :=
  mkDiag (section d) (uplevel d) e (mailFrom d) (progname d) (debugAll d) (useStderr d).
Definition set_mailFrom (e : string) (d : Diag) : Diag :=
  mkDiag (section d) (uplevel d) (mailTo d) e (progname d) (debugAll d) (useStderr d).
Definition set_progname (e : string) (d : Diag) : Diag :=
  mkDiag (section d) (uplevel d) (mailTo d) (mailFrom d) e (debugAll d) (useStderr d).
Definition set_debugAll (x : bool) (d : Diag) : Diag :=
  mkDiag (section d) (uplevel d) (mailTo d) (mailFrom d) (progname d) x (useStderr d).
Definition set_useStderr (x : bool) (d : Diag) : Diag :=
  mkDiag (section d) (uplevel d) (mailTo d) (mailFrom d) (progname d) (debugAll d) x.

Definition set_Debug (m : option (gmap string bool)) (c : Config) : Config :=
  mkConfig (MailTo c) (MailFrom c) (MailRateLimit c) (Sendmail c)
           (Facility c) (ProgName c) m.

(** [m[k]] on a [map[string]bool] that may be nil: the zero value
    [false] when the key is absent. *)
Definition mapGet (m : option (gmap string bool)) (k : string) : bool :=
  match m with
  | Some g => match g !! k with Some b => b | None => false end
  | None => false
  end.

(** ** The runtime: the external collaborators, known by their interface *)

(** What [runtime.Caller] and [runtime.FuncForPC] report for one frame:
    [fn] is [None] when [FuncForPC] returns nil. *)
Record Frame : Type := mkFrame {
  file : string;
  line : Z;
  fn : option string
}.

Record Runtime : Type := mkRuntime {
  (** [fmt.Sprintf] outside the modelled fragment *)
  fmt_other : string -> list value -> string;
  (** [strings.Map(unicode.ToLower, s)], used for non-ASCII strings *)
  unicode_lower : string -> string;
  (** [time.Now()] *)
  Now : Time;
  (** [runtime.Caller(skip)]; [None] when it reports [ok = false] *)
  Caller : Z -> option Frame;
  (** [os.Getpid()] *)
  Getpid : Z;
  (** [runtime.Stack(buf, true)] for a buffer of the given size *)
  Stack : Z -> string;
  (** [syslog.New(priority, tag)]; [None] is the nil writer returned
      with an error *)
  syslog_New : Priority -> string -> option Writer
}.

Definition Sprintf (rt : Runtime) (format : string) (args : list value) : string :=
  match sprintf_frag format args with
  | Some s => s
  | None => fmt_other rt format args
  end.

(** [strings.ToLower]: bytewise on ASCII-only strings, by runes otherwise. *)
Definition ToLower (rt : Runtime) (s : string) : string :=
  if allASCII s then mapBytes lowerASCII s else unicode_lower rt s.

(** ** Package state *)

Definition loc := nat.

(** The package-level variables ([pkg_x] is the variable [x]) and the
    heap of [Diag] structs that [*Diag] values point into. *)
Record World : Type := mkWorld {
  pkg_hostname : string;
  pkg_progname : string;
  pkg_config : option Config;          (* *Config, None = nil *)
  pkg_mailSent : gmap string Time;
  pkg_defaultDiag : loc;
  pkg_slog : option Writer;            (* *syslog.Writer, None = nil *)
  heap : gmap loc Diag
}.

Definition set_config (c : option Config) (w : World) : World :=
  mkWorld (pkg_hostname w) (pkg_progname w) c (pkg_mailSent w)
          (pkg_defaultDiag w) (pkg_slog w) (heap w).
Definition set_mailSent (m : gmap string Time) (w : World) : World :=
  mkWorld (pkg_hostname w) (pkg_progname w) (pkg_config w) m
          (pkg_defaultDiag w) (pkg_slog w) (heap w).
Definition set_slog (s : option Writer) (w : World) : World :=
  mkWorld (pkg_hostname w) (pkg_progname w) (pkg_config w) (pkg_mailSent w)
          (pkg_defaultDiag w) s (heap w).
Definition set_heap (h : gmap loc Diag) (w : World) : World :=
  mkWorld (pkg_hostname w) (pkg_progname w) (pkg_config w) (pkg_mailSent w)
          (pkg_defaultDiag w) (pkg_slog w) h.

(** The state after the variable initialisers and [init()]:
    [config = &Config{}], an empty ledger, no syslog writer, and
    [defaultDiag = &Diag{section: "default", useStderr: true, uplevel: 3}];
    [host] and [prog] are what [os.Hostname] and the base name of
    [os.Executable] gave. *)
Definition world0 (host prog : string) : World :=
  mkWorld host prog (Some Config_zero) ∅ 0%nat None
          {[ 0%nat := mkDiag "default" 3 EmptyString EmptyString EmptyString false true ]}.

(** ** Sink events *)

Inductive event : Type :=
  (** [fmt.Fprintln(os.Stderr, out)] *)
  | EvStderr (out : string)
  (** [slog.Debug(msg)], [slog.Info(msg)], ...: the severity and [msg] *)
  | EvSyslog (sev : Priority) (msg : string)
  (** the mail transport started as [cmd argv...], fed [stdin] *)
  | EvSendmail (cmd : string) (argv : list string) (stdin : string).

(** ** The monad of package code *)

Inductive abort : Type :=
  | Panic (msg : string)
  | Exit (code : Z).

Inductive result (A : Type) : Type :=
  | Ok (a : A) (w : World) (tr : list event)
  | Abort (r : abort) (w : World) (tr : list event).
Arguments Ok {A} a w tr.
Arguments Abort {A} r w tr.

Definition M (A : Type) : Type := Runtime -> World -> result A.

Definition ret {A} (a : A) : M A := fun _ w => Ok a w [].

Definition bind {A B} (c : M A) (k : A -> M B) : M B :=
  fun rt w =>
    match c rt w with
    | Ok a w1 tr1 =>
        match k a rt w1 with
        | Ok b w2 tr2 => Ok b w2 (tr1 ++ tr2)
        | Abort r w2 tr2 => Abort r w2 (tr1 ++ tr2)
        end
    | Abort r w1 tr1 => Abort r w1 tr1
    end.

Notation "x <~ c ; k" := (bind c (fun x => k))
  (at level 20, c at level 100, k at level 200, only parsing).

Definition panic {A} (msg : string) : M A := fun _ w => Abort (Panic msg) w [].
(** [os.Exit(code)] *)
Definition os_Exit {A} (code : Z) : M A := fun _ w => Abort (Exit code) w [].
Definition emit (e : event) : M unit := fun _ w => Ok tt w [e].
Definition get_world : M World := fun _ w => Ok w w [].
Definition put_world (w : World) : M unit := fun _ _ => Ok tt w [].
Definition runtime : M Runtime := fun rt w => Ok rt w [].
(** [if b { c }] *)
Definition when (b : bool) (c : M unit) : M unit := if b then c else ret tt.

(** A partial operation of the language: [None] is its run-time panic. *)
Definition orPanic {A} (msg : string) (o : option A) : M A :=
  match o with
  | Some a => ret a
  | None => panic msg
  end.

(** [*d] *)
Definition load (d : loc) : M Diag :=
  w <~ get_world;
  orPanic "invalid memory address or nil pointer dereference" (heap w !! d).

(** [*d = v] *)
Definition store (d : loc) (v : Diag) : M unit :=
  w <~ get_world;
  match heap w !! d with
  | Some _ => put_world (set_heap (<[d := v]> (heap w)) w)
  | None => panic "invalid memory address or nil pointer dereference"
  end.

(** [&n] for a local [n] that escapes: a fresh heap cell. *)
Definition alloc (v : Diag) : M loc :=
  w <~ get_world;
  let l := fresh (dom (heap w)) in
  _ <~ put_world (set_heap (<[l := v]> (heap w)) w);
  ret l.

(** A Go interpreted string literal: the escape [\n] is a newline.  The
    format strings of the source are written through it. *)
Fixpoint lit (s : string) : string :=
  match s with
  | EmptyString => EmptyString
  | String c s' =>
      match s' with
      | String c' s'' =>
          if Ascii.eqb c "\" && Ascii.eqb c' "n"
          then String NL (lit s'')
          else String c (lit s')
      | EmptyString => String c EmptyString
      end
  end.

Definition nil_deref : string :=
  "invalid memory address or nil pointer dereference".

(** ** diag.go *)

Definition getConfig : M (option Config) :=
  w <~ get_world;
  ret (pkg_config w).

(** trim full pathname to dir/file.go *)
Definition cleanFilename (file : string) : option string :=
  let si := LastIndex file "/" in
  if si =? -1 then Some file
  else
    match slice file 0 (si - 1) with
    | None => None
    | Some head =>
        let ssi := LastIndex head "/" in
        let si := if negb (ssi =? -1) then ssi else si in
        slice_from file (si + 1)
    end.

Definition cleanFunName (n : string) : option string :=
  let dot := LastIndexByte n "." in
  if negb (dot =? -1) then slice_from n (dot + 1) else Some n.

Definition rateLimited (cf : Config) (addr : string) : M bool :=
  rt <~ runtime;
  w <~ get_world;
  let now := Now rt in
  let sent := match pkg_mailSent w !! addr with Some t => t | None => zeroTime end in
  let limit := MailRateLimit cf in
  let limit := if limit =? 0 then rateLimit else limit in
  if Time_After now (Time_Add sent limit) then
    _ <~ put_world (set_mailSent (<[addr := now]> (pkg_mailSent w)) w);
    ret false
  else ret true.

(** What the goroutine of [sendEmail] writes to the pipe. *)
Definition mail_message (rt : Runtime) (host : string) (dcf : Diag)
    (txt : string) (withTrace : bool) : string :=
  Sprintf rt (lit "To: %s\nFrom: %s\nSubject: %s daemon error\n\n")
    [VStr (mailTo dcf); VStr (mailFrom dcf); VStr (progname dcf)]
  +:+ Sprintf rt (lit "an error was detected in %s\n\nhost:   %s\npid:    %d\n\n")
    [VStr (progname dcf); VStr host; VInt (Getpid rt)]
  +:+ Sprintf rt (lit "error:\n%s\n") [VStr txt]
  +:+ (if withTrace
       then Sprintf rt (lit "\n\n%s\n") [VStr (Stack rt stackMax)]
       else EmptyString).

Definition sendEmail (d : loc) (txt : string) (withTrace : bool) : M unit :=
  cf <~ getConfig;
  match cf with
  | None => ret tt
  | Some cf =>
      dcf <~ load d;
      w <~ get_world;
      let dcf := if String.eqb (mailTo dcf) "" then set_mailTo (MailTo cf) dcf else dcf in
      let dcf := if String.eqb (mailFrom dcf) "" then set_mailFrom (MailFrom cf) dcf else dcf in
      let dcf := if String.eqb (progname dcf) "" then set_progname (ProgName cf) dcf else dcf in
      let dcf := if String.eqb (progname dcf) "" then set_progname (pkg_progname w) dcf else dcf in
      if String.eqb (mailTo dcf) "" || String.eqb (mailFrom dcf) "" then ret tt
      else
        limited <~ rateLimited cf (mailTo dcf);
        if limited then ret tt
        else
          let sendmail := "sendmail"%string in
          let sendmail := if negb (String.eqb (Sendmail cf) "") then Sendmail cf else sendmail in
          rt <~ runtime;
          emit (EvSendmail sendmail ["-t"; "-f"; mailFrom dcf]%string
                  (mail_message rt (pkg_hostname w) dcf txt withTrace))
  end.

(** A method of [*syslog.Writer] called on the package's [slog]: it
    sends [msg] with the severity of the method. *)
Definition slog_send (sev : Priority) (msg : string) : M unit :=
  w <~ get_world;
  match pkg_slog w with
  | Some _ => emit (EvSyslog sev msg)
  | None => panic nil_deref
  end.

Definition sendToSyslog (prio : Priority) (msg : string) : M unit :=
  if prio =? LOG_DEBUG then slog_send LOG_DEBUG msg        (* slog.Debug(msg) *)
  else if prio =? LOG_INFO then slog_send LOG_INFO msg     (* slog.Info(msg) *)
  else if prio =? LOG_NOTICE then slog_send LOG_NOTICE msg
  else if prio =? LOG_WARNING then slog_send LOG_WARNING msg
  else if prio =? LOG_ERR then slog_send LOG_ERR msg
  else if prio =? LOG_ALERT then slog_send LOG_ALERT msg
  else if prio =? LOG_EMERG then slog_send LOG_EMERG msg
  else if prio =? LOG_CRIT then slog_send LOG_CRIT msg
  else ret tt.

Definition diag (cf : logconf) (d : loc) (format : string) (args : list value) : M unit :=
  rt <~ runtime;
  out <~ (if withInfo cf then
            dv <~ load d;
            match Caller rt (uplevel dv) with
            | Some fr =>
                (* file is full pathname - trim *)
                fileshort <~ orPanic "slice bounds out of range" (cleanFilename (file fr));
                (* get function name *)
                match fn fr with
                | Some name =>
                    funName <~ orPanic "slice bounds out of range" (cleanFunName name);
                    ret (Sprintf rt "%s:%d %s(): " [VStr fileshort; VInt (line fr); VStr funName])
                | None =>
                    ret (Sprintf rt "%s:%d ?(): " [VStr fileshort; VInt (line fr)])
                end
            | None => ret "?:?: "%string
            end
          else ret EmptyString);
  (* remove a trailing newline *)
  last <~ orPanic "index out of range" (index format (len format - 1));
  format <~ (if Ascii.eqb last NL
             then orPanic "slice bounds out of range" (slice format 0 (len format - 1))
             else ret format);
  let out := out +:+ Sprintf rt format args in
  _ <~ (if toStderr cf
        then dv <~ load d; when (useStderr dv) (emit (EvStderr out))
        else ret tt);
  (* syslog *)
  w <~ get_world;
  _ <~ when (bool_decide (pkg_slog w ≠ None)) (sendToSyslog (logprio cf) out);
  (* email *)
  when (toEmail cf) (sendEmail d out (withTrace cf)).

(** *** The levelled calls *)

(** Verbose logs a message at verbose priority *)
Definition Diag_Verbose (d : loc) (format : string) (args : list value) : M unit :=
  diag (mkLogconf LOG_INFO true false false false) d format args.

(** Debug logs a message at debug priority *)
Definition Diag_Debug (d : loc) (format : string) (args : list value) : M unit :=
  cf <~ getConfig;
  dv <~ load d;
  quiet <~ (if negb (debugAll dv) then
              c <~ orPanic nil_deref cf;
              ret (negb (mapGet (Debug c) (section dv))
                   && negb (mapGet (Debug c) "all"))
            else ret false);
  if quiet then ret tt
  else diag (mkLogconf LOG_DEBUG true false true false) d format args.

(** Problem logs a message indicating a problem *)
Definition Diag_Problem (d : loc) (format : string) (args : list value) : M unit :=
  diag (mkLogconf LOG_WARNING true true true false) d format args.

(** Bug logs a message indicating a bug *)
Definition Diag_Bug (d : loc) (format : string) (args : list value) : M unit :=
  diag (mkLogconf LOG_ERR true true true true) d format args.

(** Fatal logs a message at high priority + terminates the program *)
Definition Diag_Fatal (d : loc) (format : string) (args : list value) : M unit :=
  _ <~ diag (mkLogconf LOG_ERR true true true true) d format args;
  os_Exit (-1).

(** The package-level calls, on [defaultDiag]. *)
Definition Verbose (format : string) (args : list value) : M unit :=
  w <~ get_world; Diag_Verbose (pkg_defaultDiag w) format args.

Definition Problem (format : string) (args : list value) : M unit :=
  w <~ get_world; Diag_Problem (pkg_defaultDiag w) format args.

Definition Bug (format : string) (args : list value) : M unit :=
  w <~ get_world; Diag_Bug (pkg_defaultDiag w) format args.

Definition Fatal (format : string) (args : list value) : M unit :=
  w <~ get_world; Diag_Fatal (pkg_defaultDiag w) format args.

(** *** Handles *)

(** WithMailTo changes the mail destination *)
Definition Diag_WithMailTo (d : loc) (e : string) : M loc :=
  n <~ load d;
  let n := set_mailTo e n in
  alloc n.

(** WithMailFrom changes the mail sender *)
Definition Diag_WithMailFrom (d : loc) (e : string) : M loc :=
  n <~ load d;
  let n := set_mailFrom e n in
  alloc n.

(** Logger creates a logger *)
Definition Logger (sect : string) : M loc :=
  alloc (mkDiag sect 2 EmptyString EmptyString EmptyString false true).

(** Logger creates a logger *)
Definition Diag_Logger (d : loc) (sect : string) : M loc :=
  n <~ load d;
  let n := set_section sect n in
  alloc n.

(** SetDebugAll sets the debugall flag *)
Definition Diag_SetDebugAll (d : loc) (x : bool) : M unit :=
  dv <~ load d;
  store d (set_debugAll x dv).

(** SetStderr enables stderr output *)
Definition Diag_SetStderr (d : loc) (x : bool) : M unit :=
  dv <~ load d;
  store d (set_useStderr x dv).

(** *** Configuration *)

Definition prioName : gmap string Priority :=
  list_to_map
    [ ("kern", LOG_KERN); ("user", LOG_USER); ("mail", LOG_MAIL);
      ("daemon", LOG_DAEMON); ("auth", LOG_AUTH); ("syslog", LOG_SYSLOG);
      ("lpr", LOG_LPR); ("news", LOG_NEWS); ("uucp", LOG_UUCP);
      ("cron", LOG_CRON); ("authpriv", LOG_AUTHPRIV); ("ftp", LOG_FTP);
      ("local0", LOG_LOCAL0); ("local1", LOG_LOCAL1); ("local2", LOG_LOCAL2);
      ("local3", LOG_LOCAL3); ("local4", LOG_LOCAL4); ("local5", LOG_LOCAL5);
      ("local6", LOG_LOCAL6); ("local7", LOG_LOCAL7) ]%string.

Definition openSyslog (fac : string) : M unit :=
  rt <~ runtime;
  match prioName !! ToLower rt fac with
  | None => ret tt
  | Some p =>
      w <~ get_world;
      put_world (set_slog (syslog_New rt p (pkg_progname w)) w)
  end.

(** SetConfig sets the config *)
Definition SetConfig (cf : Config) : M unit :=
  w <~ get_world;
  _ <~ put_world (set_config (Some cf) w);
  when (bool_decide (pkg_slog w = None)) (openSyslog (Facility cf)).

(** SetDebugFlag enables/disables debug logging for a specified section *)
Definition SetDebugFlag (f : string) (v : bool) : M unit :=
  w <~ get_world;
  c <~ orPanic nil_deref (pkg_config w);
  match Debug c with
  | None => panic "assignment to entry in nil map"
  | Some m => put_world (set_config (Some (set_Debug (Some (<[f := v]> m)) c)) w)
  end.

(** ** Vocabulary of the specification *)

(** The last byte of a string, the string without its last byte, and
    the string with one trailing newline removed, if it has one. *)
Fixpoint last_byte (s : string) : option ascii :=
  match s with
  | EmptyString => None
  | String c s' => match s' with EmptyString => Some c | _ => last_byte s' end
  end.

Fixpoint drop_last (s : string) : string :=
  match s with
  | EmptyString => EmptyString
  | String c s' =>
      match s' with EmptyString => EmptyString | _ => String c (drop_last s') end
  end.

Definition chomp (s : string) : string :=
  match last_byte s with
  | Some c => if Ascii.eqb c NL then drop_last s else s
  | None => s
  end.

(** The five call kinds and the table of section 4.1 of the
    specification: priority, stderr, email, call-site info, stack
    trace; which kind is gated; which kind terminates the process. *)
Inductive kind : Type := KVerbose | KDebug | KProblem | KBug | KFatal.

Definition policy (k : kind) : logconf :=
  match k with
  | KVerbose => mkLogconf LOG_INFO true false false false
  | KDebug => mkLogconf LOG_DEBUG true false true false
  | KProblem => mkLogconf LOG_WARNING true true true false
  | KBug => mkLogconf LOG_ERR true true true true
  | KFatal => mkLogconf LOG_ERR true true true true   (* same as Bug *)
  end.

Definition gated (k : kind) : bool :=
  match k with KDebug => true | _ => false end.

Definition terminates (k : kind) : bool :=
  match k with KFatal => true | _ => false end.

(** The method of [*Diag] for each call kind. *)
Definition call (k : kind) : loc -> string -> list value -> M unit :=
  match k with
  | KVerbose => Diag_Verbose
  | KDebug => Diag_Debug
  | KProblem => Diag_Problem
  | KBug => Diag_Bug
  | KFatal => Diag_Fatal
  end.

(** The global debug map has [true] for key [k]. *)
Definition maps_true (m : option (gmap string bool)) (k : string) : Prop :=
  exists g, m = Some g /\ g !! k = Some true.

(** Section 4.2: a Debug call is suppressed unless one of the three
    switches is on. *)
Definition suppressed (dv : Diag) (c : Config) : Prop :=
  debugAll dv = false /\
  ~ maps_true (Debug c) (section dv) /\
  ~ maps_true (Debug c) "all".

(** The gate as the condition of the [if] in [Debug] computes it. *)
Definition quiet (dv : Diag) (c : Config) : bool :=
  negb (debugAll dv) && negb (mapGet (Debug c) (section dv))
  && negb (mapGet (Debug c) "all").

(** Section 4.2, the other way round: one of the three switches is on
    in state [w] for the handle [dv], so a Debug call goes through. *)
Definition gate_open (w : World) (dv : Diag) : Prop :=
  debugAll dv = true \/
  exists c, pkg_config w = Some c /\
    (maps_true (Debug c) (section dv) \/ maps_true (Debug c) "all").

(** Section 4.5, step 1: the effective mail endpoints and program name
    are the handle's when non-empty, else the configuration's, else
    (program name only) the executable's base name. *)
Definition effective_mailTo (c : Config) (dv : Diag) : string :=
  if String.eqb (mailTo dv) "" then MailTo c else mailTo dv.

Definition effective_mailFrom (c : Config) (dv : Diag) : string :=
  if String.eqb (mailFrom dv) "" then MailFrom c else mailFrom dv.

Definition effective_progname (c : Config) (prog : string) (dv : Diag) : string :=
  let pn := if String.eqb (progname dv) "" then ProgName c else progname dv in
  if String.eqb pn "" then prog else pn.

Definition effective (c : Config) (prog : string) (dv : Diag) : Diag :=
  mkDiag (section dv) (uplevel dv) (effective_mailTo c dv)
         (effective_mailFrom c dv) (effective_progname c prog dv)
         (debugAll dv) (useStderr dv).

(** Section 4.6: the window in force and the ledger entry of a
    recipient (the zero time when there is none). *)
Definition window (c : Config) : Duration :=
  if MailRateLimit c =? 0 then 60 * 1000000000 else MailRateLimit c.

Definition lastSent (w : World) (addr : string) : Time :=
  match pkg_mailSent w !! addr with Some t => t | None => zeroTime end.

(** The mail transport invocation of section 4.5, steps 4 and 5. *)
Definition mail_event (rt : Runtime) (w : World) (c : Config) (e : Diag)
    (txt : string) (trace : bool) : event :=
  EvSendmail (if String.eqb (Sendmail c) "" then "sendmail" else Sendmail c)
             ["-t"; "-f"; mailFrom e]%string
             (mail_message rt (pkg_hostname w) e txt trace).

(** Section 4.3: the call-site prefix, [None] when computing it panics. *)
Definition callsite_prefix (rt : Runtime) (dv : Diag) : option string :=
  match Caller rt (uplevel dv) with
  | None => Some "?:?: "%string
  | Some fr =>
      match cleanFilename (file fr) with
      | None => None
      | Some fileshort =>
          match fn fr with
          | None => Some (fileshort +:+ ":" +:+ Itoa (line fr) +:+ " ?(): ")
          | Some name =>
              match cleanFunName name with
              | None => None
              | Some funName =>
                  Some (fileshort +:+ ":" +:+ Itoa (line fr) +:+ " "
                        +:+ funName +:+ "(): ")
              end
          end
      end
  end.

Definition prefix_of (cf : logconf) (rt : Runtime) (dv : Diag) : option string :=
  if withInfo cf then callsite_prefix rt dv else Some EmptyString.

(** Section 4.4: what the stderr and syslog sinks receive for [out]. *)
Definition is_severity (p : Priority) : bool := (0 <=? p) && (p <=? 7).

Definition stderr_events (cf : logconf) (dv : Diag) (out : string) : list event :=
  if toStderr cf && useStderr dv then [EvStderr out] else [].

Definition syslog_events (cf : logconf) (w : World) (out : string) : list event :=
  match pkg_slog w with
  | Some _ => if is_severity (logprio cf) then [EvSyslog (logprio cf) out] else []
  | None => []
  end.

Definition mail_events (cf : logconf) (rt : Runtime) (w : World) (dv : Diag)
    (out : string) : list event :=
  if toEmail cf then
    match pkg_config w with
    | None => []
    | Some c =>
        let e := effective c (pkg_progname w) dv in
        if String.eqb (mailTo e) "" || String.eqb (mailFrom e) "" then []
        else if Now rt <=? lastSent w (mailTo e) + window c then []
        else [mail_event rt w c e out (withTrace cf)]
    end
  else [].

(** The text [out] is what event [e] hands to its sink. *)
Definition handed (out : string) (e : event) : Prop :=
  match e with
  | EvStderr s => s = out
  | EvSyslog _ msg => msg = out
  | EvSendmail _ _ stdin =>
      exists rt host dcf trace, stdin = mail_message rt host dcf out trace
  end.

(** The number of mail transport invocations in a trace. *)
Fixpoint mails (tr : list event) : nat :=
  match tr with
  | [] => 0%nat
  | EvSendmail _ _ _ :: tr' => S (mails tr')
  | _ :: tr' => mails tr'
  end.

Definition trace_of {A} (r : result A) : list event :=
  match r with
  | Ok _ _ tr => tr
  | Abort _ _ tr => tr
  end.

(** The status with which the process exits, if the call ends in
    [os.Exit]. *)
Definition exit_code {A} (r : result A) : option Z :=
  match r with
  | Abort (Exit code) _ _ => Some code
  | _ => None
  end.

(** The globals other than the heap of handles. *)
Definition globals (w : World) :=
  (pkg_hostname w, pkg_progname w, pkg_config w, pkg_mailSent w,
   pkg_defaultDiag w, pkg_slog w).

(** The two parts of [diag]: the computation of the call-site prefix
    and the fan-out of the finished text to the sinks. *)
Definition diag_prefix (cf : logconf) (d : loc) (rt : Runtime) : M string :=
  if withInfo cf then
    dv <~ load d;
    match Caller rt (uplevel dv) with
    | Some fr =>
        fileshort <~ orPanic "slice bounds out of range" (cleanFilename (file fr));
        match fn fr with
        | Some name =>
            funName <~ orPanic "slice bounds out of range" (cleanFunName name);
            ret (Sprintf rt "%s:%d %s(): " [VStr fileshort; VInt (line fr); VStr funName])
        | None =>
            ret (Sprintf rt "%s:%d ?(): " [VStr fileshort; VInt (line fr)])
        end
    | None => ret "?:?: "%string
    end
  else ret EmptyString.

Definition fanout (cf : logconf) (d : loc) (out : string) : M unit :=
  _ <~ (if toStderr cf
        then dv <~ load d; when (useStderr dv) (emit (EvStderr out))
        else ret tt);
  w <~ get_world;
  _ <~ when (bool_decide (pkg_slog w ≠ None)) (sendToSyslog (logprio cf) out);
  when (toEmail cf) (sendEmail d out (withTrace cf)).

(** ** Further vocabulary: runs of several calls, and what is observed *)

(** The runtime [rt] with its clock reading [t]. *)
Definition at_time (rt : Runtime) (t : Time) : Runtime :=
  mkRuntime (fmt_other rt) (unicode_lower rt) t (Caller rt) (Getpid rt)
            (Stack rt) (syslog_New rt).

(** The rate-limit check run once at each of the times of a list, one
    after the other, for one recipient: the times at which it permits. *)
Fixpoint permitted (cf : Config) (addr : string) (rt : Runtime)
    (times : list Time) (w : World) : list Time :=
  match times with
  | [] => []
  | t :: ts =>
      match rateLimited cf addr (at_time rt t) w with
      | Ok false w' _ => t :: permitted cf addr rt ts w'
      | Ok true w' _ => permitted cf addr rt ts w'
      | Abort _ _ _ => []
      end
  end.

(** Each time of the list is more than [gap] after the one before it,
    the first one more than [gap] after [prev]. *)
Fixpoint spaced (gap : Duration) (prev : Time) (l : list Time) : Prop :=
  match l with
  | [] => True
  | t :: l' => prev + gap < t /\ spaced gap t l'
  end.

Definition verdict (r : result bool) : option bool :=
  match r with
  | Ok b _ _ => Some b
  | Abort _ _ _ => None
  end.

Definition world_of {A} (r : result A) : World :=
  match r with
  | Ok _ w _ => w
  | Abort _ w _ => w
  end.

(** How a call ended: [None] when it returned. *)
Definition outcome {A} (r : result A) : option abort :=
  match r with
  | Ok _ _ _ => None
  | Abort a _ _ => Some a
  end.

(** The events of one dispatch of text [out]. *)
Definition events_of (cf : logconf) (rt : Runtime) (w : World) (dv : Diag)
    (out : string) : list event :=
  stderr_events cf dv out ++ syslog_events cf w out ++ mail_events cf rt w dv out.

(** The flag [-D] that [init()] registers with
    [flag.BoolVar(&defaultDiag.debugAll, "D", false, ...)]: parsing the
    command line stores the value of the flag through that pointer. *)
Definition flag_D (x : bool) : M unit :=
  w <~ get_world;
  dv <~ load (pkg_defaultDiag w);
  store (pkg_defaultDiag w) (set_debugAll x dv).

(** ** Concrete runtimes and states for the examples *)

Definition frame_ex : Frame :=
  mkFrame "/home/u/src/pkg/file.go" 42 (Some "example.com/pkg.(*Server).Handler"%string).

Definition rt_at (now : Time) (fr : option Frame) : Runtime :=
  mkRuntime (fun _ _ => "%!(UNMODELLED)"%string) (fun s => s) now
    (fun _ => fr) 4711 (fun _ => "goroutine 1 [running]:"%string)
    (fun p t => Some (mkWriter p t)).

Definition t_ex : Time := 63900000000000000000.

Definition rt_ex : Runtime := rt_at t_ex (Some frame_ex).

(** A runtime that resolves the caller to a source file in the root
    directory. *)
Definition rt_root : Runtime :=
  rt_at t_ex (Some (mkFrame "/main.go" 7 (Some "main.main"%string))).

Definition w_ex : World := world0 "host" "prog".

Definition cfg_ex : Config :=
  mkConfig "devteam@company" "daemon@company" 0 EmptyString "Local5" "proggyd"
           (Some {[ "encabulator"%string := true ]}).

Definition w_cfg : World := set_config (Some cfg_ex) w_ex.

(** The same, with debugging of the section "default" switched on. *)
Definition w_debug : World :=
  set_config (Some (set_Debug (Some {[ "default"%string := true ]}) cfg_ex)) w_ex.

(** * Properties *)

(** ** Strings *)

Lemma len_String c s : len (String c s) = 1 + len s.
Proof. unfold len. cbn [String.length]. lia. Qed.

Lemma len_nonneg s : 0 <= len s.
Proof. unfold len. lia. Qed.

Lemma get_last c s :
  String.get (String.length s) (String c s) = last_byte (String c s).
Proof.
  revert c. induction s as [|a s IH]; intros c; [reflexivity|].
  change (String.get (String.length (String a s)) (String c (String a s)))
    with (String.get (String.length s) (String a s)).
  rewrite IH. reflexivity.
Qed.

(** [format[len(format)-1]] is the last byte, and panics on [""]. *)
Lemma index_last s : index s (len s - 1) = last_byte s.
Proof.
  destruct s as [|c s]; [reflexivity|].
  unfold index. rewrite len_String.
  replace (1 + len s - 1) with (len s) by lia.
  pose proof (len_nonneg s).
  destruct (0 <=? len s) eqn:E1; [|lia].
  destruct (len s <? 1 + len s) eqn:E2; [|lia].
  cbn [andb]. unfold len. rewrite Nat2Z.id. apply get_last.
Qed.

Lemma substring_drop_last c s :
  substring 0 (String.length s) (String c s) = drop_last (String c s).
Proof.
  revert c. induction s as [|a s IH]; intros c; [reflexivity|].
  change (substring 0 (String.length (String a s)) (String c (String a s)))
    with (String c (substring 0 (String.length s) (String a s))).
  rewrite IH. reflexivity.
Qed.

(** [format[:len(format)-1]] drops the last byte. *)
Lemma slice_drop_last s :
  s <> EmptyString -> slice s 0 (len s - 1) = Some (drop_last s).
Proof.
  destruct s as [|c s]; [congruence|]. intros _.
  unfold slice. rewrite len_String.
  replace (1 + len s - 1) with (len s) by lia.
  pose proof (len_nonneg s).
  destruct (0 <=? 0) eqn:E0; [|lia].
  destruct (0 <=? len s) eqn:E1; [|lia].
  destruct (len s <=? 1 + len s) eqn:E2; [|lia].
  cbn [andb]. rewrite Z.sub_0_r. unfold len. rewrite Nat2Z.id.
  change (Z.to_nat 0) with 0%nat.
  f_equal. apply substring_drop_last.
Qed.

Lemma last_byte_nonempty s :
  s <> EmptyString -> exists c, last_byte s = Some c.
Proof.
  induction s as [|c s IH]; [congruence|]. intros _.
  destruct s as [|a s]; [eexists; reflexivity|].
  destruct IH as [x Hx]; [congruence|]. exists x. exact Hx.
Qed.

Lemma last_byte_empty s : last_byte s = None -> s = EmptyString.
Proof.
  destruct s as [|c s]; [reflexivity|]. intros H.
  destruct (last_byte_nonempty (String c s)) as [x Hx]; congruence.
Qed.

Lemma last_byte_app a b :
  b <> EmptyString -> last_byte (a +:+ b) = last_byte b.
Proof.
  intros Hb. induction a as [|c a IH]; [reflexivity|].
  change (last_byte (String c a +:+ b))
    with (match a +:+ b with EmptyString => Some c | _ => last_byte (a +:+ b) end).
  rewrite IH.
  destruct (a +:+ b) eqn:E; [|reflexivity].
  destruct a; simpl in E; [exfalso; exact (Hb E)|discriminate].
Qed.

Lemma last_byte_app_r a b c :
  last_byte b = Some c -> last_byte (a +:+ b) = Some c.
Proof.
  intros H. rewrite last_byte_app; [exact H|].
  intros ->. discriminate.
Qed.

Lemma append_assoc (a b c : string) : (a +:+ b) +:+ c = a +:+ (b +:+ c).
Proof.
  induction a as [|x a IH]; [reflexivity|].
  change (String x ((a +:+ b) +:+ c) = String x (a +:+ (b +:+ c))).
  rewrite IH. reflexivity.
Qed.

Lemma drop_last_app_byte s c : drop_last (s +:+ String c EmptyString) = s.
Proof.
  induction s as [|a s IH]; [reflexivity|].
  change (drop_last (String a s +:+ String c EmptyString))
    with (match s +:+ String c EmptyString with
          | EmptyString => EmptyString
          | _ => String a (drop_last (s +:+ String c EmptyString))
          end).
  rewrite IH. destruct s; reflexivity.
Qed.

(** [chomp] removes exactly one trailing newline, and nothing else. *)
Lemma chomp_newline s : chomp (s +:+ String NL EmptyString) = s.
Proof.
  unfold chomp. rewrite (last_byte_app_r s _ NL) by reflexivity.
  cbn. apply drop_last_app_byte.
Qed.

Lemma chomp_other s : last_byte s <> Some NL -> chomp s = s.
Proof.
  intros H. unfold chomp. destruct (last_byte s) as [c|]; [|reflexivity].
  destruct (Ascii.eqb_spec c NL) as [->|]; [congruence|reflexivity].
Qed.

(** ** The monad *)

Lemma bind_runtime {B} (k : Runtime -> M B) rt w :
  bind runtime k rt w = k rt rt w.
Proof. unfold bind, runtime. destruct (k rt rt w); reflexivity. Qed.

Lemma bind_get_world {B} (k : World -> M B) rt w :
  bind get_world k rt w = k w rt w.
Proof. unfold bind, get_world. destruct (k w rt w); reflexivity. Qed.

Lemma bind_Ok_nil {A B} (c : M A) (k : A -> M B) rt w a w' :
  c rt w = Ok a w' [] -> bind c k rt w = k a rt w'.
Proof. intros H. unfold bind. rewrite H. destruct (k a rt w'); reflexivity. Qed.

Lemma bind_Abort {A B} (c : M A) (k : A -> M B) rt w r w' tr :
  c rt w = Abort r w' tr -> bind c k rt w = Abort r w' tr.
Proof. intros H. unfold bind. rewrite H. reflexivity. Qed.

Lemma load_live d dv rt w : heap w !! d = Some dv -> load d rt w = Ok dv w [].
Proof. intros H. unfold load. rewrite bind_get_world, H. reflexivity. Qed.

Lemma load_dead d rt w :
  heap w !! d = None -> load d rt w = Abort (Panic nil_deref) w [].
Proof. intros H. unfold load. rewrite bind_get_world, H. reflexivity. Qed.

Ltac run :=
  unfold bind, ret, panic, os_Exit, emit, get_world, put_world, runtime,
    when, orPanic, getConfig, load, store, alloc in *;
  cbn -[fresh prioName] in *.

(** ** Closed forms of the dispatch engine on a live handle *)

Lemma sendToSyslog_run p msg rt w sl :
  pkg_slog w = Some sl ->
  sendToSyslog p msg rt w =
    Ok tt w (if is_severity p then [EvSyslog p msg] else []).
Proof.
  intros Hs. unfold sendToSyslog, slog_send, is_severity.
  unfold LOG_DEBUG, LOG_INFO, LOG_NOTICE, LOG_WARNING, LOG_ERR, LOG_ALERT,
    LOG_EMERG, LOG_CRIT.
  repeat match goal with
         | |- context [p =? ?k] =>
             destruct (Z.eqb_spec p k) as [->|?]; [run; rewrite Hs; reflexivity|]
         end.
  run.
  destruct (0 <=? p) eqn:E1, (p <=? 7) eqn:E2; try reflexivity. lia.
Qed.

Section LiveHandle.

Variables (rt : Runtime) (w : World) (d : loc) (dv : Diag).
Hypothesis Hd : heap w !! d = Some dv.

Lemma sendEmail_run txt trace :
  sendEmail d txt trace rt w =
    match pkg_config w with
    | None => Ok tt w []
    | Some c =>
        let e := effective c (pkg_progname w) dv in
        if String.eqb (mailTo e) "" || String.eqb (mailFrom e) "" then Ok tt w []
        else if Now rt <=? lastSent w (mailTo e) + window c then Ok tt w []
        else Ok tt (set_mailSent (<[mailTo e := Now rt]> (pkg_mailSent w)) w)
                [mail_event rt w c e txt trace]
    end.
Proof.
  unfold sendEmail, rateLimited. run.
  destruct (pkg_config w) as [c|]; [|reflexivity].
  cbn. rewrite Hd. cbn.
  unfold effective, effective_mailTo, effective_mailFrom, effective_progname,
    lastSent, window, mail_event, Time_After, Time_Add.
  change rateLimit with (60 * 1000000000).
  clear Hd. destruct dv as [s u to from pn da us]; cbn.
  destruct (String.eqb to "") eqn:Eto,
           (String.eqb from "") eqn:Efrom,
           (String.eqb pn "") eqn:Epn,
           (String.eqb (ProgName c) "") eqn:Epc,
           (String.eqb (MailTo c) "") eqn:Emt,
           (String.eqb (MailFrom c) "") eqn:Emf,
           (String.eqb (Sendmail c) "") eqn:Esm.
  all: repeat (cbn; match goal with
                    | H : String.eqb _ _ = _ |- _ => rewrite H
                    end); cbn; try reflexivity.
  all: rewrite Z.leb_antisym; destruct (_ <? Now rt); reflexivity.
Qed.

Lemma fanout_run cf out :
  fanout cf d out rt w =
    if toEmail cf then
      match sendEmail d out (withTrace cf) rt w with
      | Ok _ w' tr =>
          Ok tt w' (stderr_events cf dv out ++ syslog_events cf w out ++ tr)
      | Abort r w' tr =>
          Abort r w' (stderr_events cf dv out ++ syslog_events cf w out ++ tr)
      end
    else Ok tt w (stderr_events cf dv out ++ syslog_events cf w out).
Proof.
  unfold fanout, stderr_events, syslog_events.
  unfold bind at 1.
  assert (H1 : (if toStderr cf
                then dv <~ load d; when (useStderr dv) (emit (EvStderr out))
                else ret tt) rt w
               = Ok tt w (if toStderr cf && useStderr dv then [EvStderr out] else [])).
  { destruct (toStderr cf); [|reflexivity].
    rewrite (bind_Ok_nil _ _ _ _ _ _ (load_live _ _ _ _ Hd)).
    destruct (useStderr dv); reflexivity. }
  rewrite H1. clear H1.
  rewrite bind_get_world.
  unfold bind at 1.
  assert (H2 : when (bool_decide (pkg_slog w ≠ None))
                 (sendToSyslog (logprio cf) out) rt w
               = Ok tt w (match pkg_slog w with
                          | Some _ => if is_severity (logprio cf)
                                      then [EvSyslog (logprio cf) out] else []
                          | None => []
                          end)).
  { destruct (pkg_slog w) as [sl|] eqn:Es.
    - rewrite bool_decide_eq_true_2 by congruence. cbn [when].
      erewrite sendToSyslog_run by eassumption. reflexivity.
    - rewrite bool_decide_eq_false_2 by (intros H; apply H; reflexivity).
      reflexivity. }
  rewrite H2. clear H2.
  destruct (toEmail cf); cbn [when].
  - destruct (sendEmail d out (withTrace cf) rt w) as [[] ? ?|? ? ?]; reflexivity.
  - unfold ret. rewrite app_nil_r. reflexivity.
Qed.

Lemma diag_prefix_run cf :
  diag_prefix cf d rt rt w =
    match prefix_of cf rt dv with
    | Some pre => Ok pre w []
    | None => Abort (Panic "slice bounds out of range") w []
    end.
Proof.
  unfold diag_prefix, prefix_of, callsite_prefix.
  destruct (withInfo cf); [|reflexivity].
  rewrite (bind_Ok_nil _ _ _ _ _ _ (load_live _ _ _ _ Hd)).
  destruct (Caller rt (uplevel dv)) as [fr|]; [|reflexivity].
  destruct (cleanFilename (file fr)) as [fs|]; [|reflexivity].
  rewrite (bind_Ok_nil _ _ _ _ fs w) by reflexivity.
  destruct (fn fr) as [name|]; [|reflexivity].
  destruct (cleanFunName name) as [f|]; reflexivity.
Qed.

(** [diag] on a live handle: it panics when the call-site prefix cannot
    be computed or when the format is empty; otherwise it fans out the
    prefix followed by the formatting of the chomped format. *)
Lemma diag_run cf format args :
  diag cf d format args rt w =
    match prefix_of cf rt dv with
    | None => Abort (Panic "slice bounds out of range") w []
    | Some pre =>
        if String.eqb format "" then Abort (Panic "index out of range") w []
        else fanout cf d (pre +:+ Sprintf rt (chomp format) args) rt w
    end.
Proof.
  unfold diag. rewrite bind_runtime.
  change (bind ?c ?k rt w) with (bind (diag_prefix cf d rt) k rt w).
  pose proof (diag_prefix_run cf) as Hp.
  destruct (prefix_of cf rt dv) as [pre|].
  2:{ erewrite bind_Abort by exact Hp. reflexivity. }
  erewrite bind_Ok_nil by exact Hp.
  rewrite index_last.
  destruct (String.eqb_spec format "") as [->|Hne].
  { reflexivity. }
  destruct (last_byte_nonempty format Hne) as [c Hc].
  unfold chomp. rewrite Hc.
  erewrite bind_Ok_nil by reflexivity.
  destruct (Ascii.eqb c NL).
  - rewrite (slice_drop_last format Hne).
    erewrite bind_Ok_nil by reflexivity. reflexivity.
  - erewrite bind_Ok_nil by reflexivity. reflexivity.
Qed.

(** On a live handle the fan-out never fails, and every event it
    produces carries the text it was given. *)
Lemma fanout_ok cf out :
  exists w' tr,
    fanout cf d out rt w = Ok tt w' tr /\
    heap w' = heap w /\
    forall e, e ∈ tr -> handed out e.
Proof.
  rewrite fanout_run, sendEmail_run.
  assert (Hpre : forall e,
             e ∈ stderr_events cf dv out ++ syslog_events cf w out -> handed out e).
  { intros e He. apply elem_of_app in He as [He|He].
    - unfold stderr_events in He.
      destruct (toStderr cf && useStderr dv);
        [apply list_elem_of_singleton in He; subst; reflexivity
        |apply not_elem_of_nil in He; contradiction].
    - unfold syslog_events in He.
      destruct (pkg_slog w); [|apply not_elem_of_nil in He; contradiction].
      destruct (is_severity (logprio cf));
        [apply list_elem_of_singleton in He; subst; reflexivity
        |apply not_elem_of_nil in He; contradiction]. }
  destruct (toEmail cf).
  2:{ eexists _, _. split; [reflexivity|]. split; [reflexivity|]. exact Hpre. }
  destruct (pkg_config w) as [c|].
  2:{ eexists _, _. split; [reflexivity|]. split; [reflexivity|].
      intros e He. rewrite app_nil_r in He. auto. }
  cbv zeta.
  destruct (_ || _).
  { eexists _, _. split; [reflexivity|]. split; [reflexivity|].
    intros e He. rewrite app_nil_r in He. auto. }
  destruct (_ <=? _).
  { eexists _, _. split; [reflexivity|]. split; [reflexivity|].
    intros e He. rewrite app_nil_r in He. auto. }
  eexists _, _. split; [reflexivity|]. split; [reflexivity|].
  intros e He. rewrite app_assoc in He.
  apply elem_of_app in He as [He|He]; [auto|].
  apply list_elem_of_singleton in He. subst e.
  unfold mail_event. cbn. eauto.
Qed.

(** One dispatch on a live handle, for a format and call site that
    format: it returns, and its events are, sink by sink, what the
    bundle asks for: the stderr line, the syslog severity, whether mail
    is attempted and whether the mail carries the stack dump. *)
Lemma diag_ok cf format args pre :
  prefix_of cf rt dv = Some pre ->
  format <> EmptyString ->
  let out := pre +:+ Sprintf rt (chomp format) args in
  exists w',
    diag cf d format args rt w
    = Ok tt w' (stderr_events cf dv out ++ syslog_events cf w out
                ++ mail_events cf rt w dv out).
Proof.
  intros Hp Hne out. rewrite diag_run, Hp.
  destruct (String.eqb_spec format "") as [->|_]; [congruence|].
  rewrite fanout_run, sendEmail_run. fold out. unfold mail_events.
  destruct (toEmail cf); [|rewrite app_nil_r; eauto].
  destruct (pkg_config w) as [c|]; [|eauto].
  cbv zeta. destruct (_ || _); [eauto|].
  destruct (_ <=? _); eauto.
Qed.

End LiveHandle.

(** ** The dispatch table *)

(** The gate of [Debug], in the words of the specification. *)
Lemma mapGet_true m k : mapGet m k = true <-> maps_true m k.
Proof.
  unfold mapGet, maps_true. split.
  - destruct m as [g|]; [|discriminate].
    destruct (g !! k) as [b|] eqn:E; [|discriminate].
    intros ->. eauto.
  - intros (g & -> & ->). reflexivity.
Qed.

Lemma quiet_suppressed dv c : quiet dv c = true <-> suppressed dv c.
Proof.
  unfold quiet, suppressed. rewrite <- !mapGet_true.
  destruct (debugAll dv), (mapGet (Debug c) (section dv)),
    (mapGet (Debug c) "all"); cbn; intuition congruence.
Qed.

Lemma bind_ret_tt (c : M unit) rt w : (_ <~ c; ret tt) rt w = c rt w.
Proof.
  unfold bind, ret. destruct (c rt w) as [[] ? ?|? ? ?]; [|reflexivity].
  rewrite app_nil_r. reflexivity.
Qed.

(** C1.  Every call kind dispatches with exactly the bundle of the
    fixed table: Verbose (info; stderr), Debug (debug; stderr and
    call-site info), Problem (warning; stderr, email, call-site info),
    Bug (error; stderr, email, call-site info, stack trace), Fatal (the
    bundle of Bug), and the call then exits the process exactly for
    Fatal.  Which calls dispatch is fixed as well: Verbose, Problem, Bug
    and Fatal always do; Debug, the one gated kind, dispatches when the
    handle's [debugAll] is set or the configuration's debug map has
    [true] for the handle's section or for "all", returns with nothing
    done when it is suppressed, and stops on a nil handle or (having to
    consult it) a nil configuration.  A call that dispatches on a live
    handle, with a format and a call site that format, is observed as
    the table says: the sinks receive the events of the bundle of its
    kind, and the process exits, with status -1, exactly for Fatal. *)
Theorem dispatch_table (k : kind) (d : loc) (format : string)
    (args : list value) (rt : Runtime) (w : World) :
  let dispatch :=
    (_ <~ diag (policy k) d format args;
     if terminates k then os_Exit (-1) else ret tt) rt w in
  call k d format args rt w
  = (if gated k then
       match heap w !! d with
       | None => Abort (Panic nil_deref) w []
       | Some dv =>
           if debugAll dv then dispatch
           else match pkg_config w with
                | None => Abort (Panic nil_deref) w []
                | Some c => if quiet dv c then Ok tt w [] else dispatch
                end
       end
     else dispatch) /\
  (forall dv,
     heap w !! d = Some dv ->
     (gated k = false \/ gate_open w dv ->
      call k d format args rt w = dispatch) /\
     (forall c,
        gated k = true -> pkg_config w = Some c -> suppressed dv c ->
        call k d format args rt w = Ok tt w [])) /\
  (forall dv pre,
     heap w !! d = Some dv ->
     prefix_of (policy k) rt dv = Some pre ->
     format <> EmptyString ->
     let out := pre +:+ Sprintf rt (chomp format) args in
     (trace_of dispatch
      = stderr_events (policy k) dv out ++ syslog_events (policy k) w out
        ++ mail_events (policy k) rt w dv out /\
      exit_code dispatch = if terminates k then Some (-1) else None) /\
     (gated k = false \/ gate_open w dv ->
      trace_of (call k d format args rt w)
      = stderr_events (policy k) dv out ++ syslog_events (policy k) w out
        ++ mail_events (policy k) rt w dv out /\
      exit_code (call k d format args rt w)
      = if terminates k then Some (-1) else None)).
Proof.
  intros dispatch.
  assert (Hcall : call k d format args rt w
    = (if gated k then
         match heap w !! d with
         | None => Abort (Panic nil_deref) w []
         | Some dv =>
             if debugAll dv then dispatch
             else match pkg_config w with
                  | None => Abort (Panic nil_deref) w []
                  | Some c => if quiet dv c then Ok tt w [] else dispatch
                  end
         end
       else dispatch)).
  { subst dispatch. destruct k; cbn [call policy terminates gated].
    - symmetry. apply bind_ret_tt.
    - unfold Diag_Debug, quiet.
      rewrite (bind_Ok_nil getConfig _ rt w (pkg_config w) w) by reflexivity.
      destruct (heap w !! d) as [dv|] eqn:Hd.
      2:{ apply bind_Abort, load_dead, Hd. }
      rewrite (bind_Ok_nil _ _ rt w dv w) by (apply load_live, Hd).
      destruct (debugAll dv); cbn [negb andb].
      { rewrite (bind_Ok_nil _ _ rt w false w) by reflexivity.
        symmetry. apply bind_ret_tt. }
      destruct (pkg_config w) as [c|].
      2:{ apply bind_Abort. reflexivity. }
      rewrite (bind_Ok_nil _ _ rt w
                 (negb (mapGet (Debug c) (section dv)) && negb (mapGet (Debug c) "all")) w)
        by reflexivity.
      destruct (negb (mapGet (Debug c) (section dv)) && negb (mapGet (Debug c) "all")).
      + reflexivity.
      + symmetry. apply bind_ret_tt.
    - symmetry. apply bind_ret_tt.
    - symmetry. apply bind_ret_tt.
    - reflexivity. }
  assert (Hopen : forall dv, heap w !! d = Some dv ->
            gated k = false \/ gate_open w dv ->
            call k d format args rt w = dispatch).
  { intros dv Hd Hg. rewrite Hcall.
    destruct (gated k); [|reflexivity]. rewrite Hd.
    destruct Hg as [Hg|[Hg|(c & Hc & Hm)]]; [discriminate|rewrite Hg; reflexivity|].
    destruct (debugAll dv) eqn:Ha; [reflexivity|]. rewrite Hc.
    destruct (quiet dv c) eqn:Hq; [|reflexivity].
    apply quiet_suppressed in Hq. destruct Hq as (_ & Hs & Hall).
    destruct Hm; contradiction. }
  split; [exact Hcall|]. split.
  - intros dv Hd. split; [exact (Hopen dv Hd)|].
    intros c Hg Hc Hs. rewrite Hcall, Hg, Hd, Hc.
    pose proof Hs as (Ha & _). rewrite Ha.
    apply quiet_suppressed in Hs. rewrite Hs. reflexivity.
  - intros dv pre Hd Hp Hne out.
    assert (Hobs : trace_of dispatch
                   = stderr_events (policy k) dv out ++ syslog_events (policy k) w out
                     ++ mail_events (policy k) rt w dv out /\
                   exit_code dispatch = if terminates k then Some (-1) else None).
    { destruct (diag_ok rt w d dv Hd (policy k) format args pre Hp Hne) as [w' Hok].
      subst dispatch. unfold bind. rewrite Hok. fold out.
      destruct (terminates k); cbn [os_Exit ret trace_of exit_code];
        rewrite app_nil_r; split; reflexivity. }
    split; [exact Hobs|].
    intros Hg. rewrite (Hopen dv Hd Hg). exact Hobs.
Qed.

(** On the default handle, with the section "default" switched on in
    the debug map: the Debug call of the example is written to stderr
    with its call-site prefix, at no other sink, and returns. *)
Lemma dispatch_table_witness :
  heap w_debug !! 0%nat = Some (mkDiag "default" 3 "" "" "" false true) /\
  gate_open w_debug (mkDiag "default" 3 "" "" "" false true) /\
  trace_of (call KDebug 0%nat (lit "deplenation: %d\n") [VInt 3] rt_ex w_debug)
  = [EvStderr "pkg/file.go:42 Handler(): deplenation: 3"] /\
  exit_code (call KDebug 0%nat (lit "deplenation: %d\n") [VInt 3] rt_ex w_debug) = None.
Proof.
  assert (Hg : gate_open w_debug (mkDiag "default" 3 "" "" "" false true)).
  { right. eexists. split; [reflexivity|]. left.
    eexists. split; reflexivity. }
  split; [reflexivity|]. split; [exact Hg|].
  refine (proj2 (proj2 (proj2 (dispatch_table KDebug 0%nat (lit "deplenation: %d\n")
                                 [VInt 3] rt_ex w_debug))
            (mkDiag "default" 3 "" "" "" false true) "pkg/file.go:42 Handler(): "
            eq_refl eq_refl _) (or_intror Hg)).
  discriminate.
Defined.

(** The package-level calls are the methods on [defaultDiag]. *)
Lemma package_calls format args rt w :
  Verbose format args rt w = call KVerbose (pkg_defaultDiag w) format args rt w /\
  Problem format args rt w = call KProblem (pkg_defaultDiag w) format args rt w /\
  Bug format args rt w = call KBug (pkg_defaultDiag w) format args rt w /\
  Fatal format args rt w = call KFatal (pkg_defaultDiag w) format args rt w.
Proof.
  unfold Verbose, Problem, Bug, Fatal. rewrite !bind_get_world. auto.
Qed.

(** ** The rate limiter *)

(** The check in closed form. *)
Lemma rateLimited_run cf addr rt w :
  rateLimited cf addr rt w =
    if Now rt <=? lastSent w addr + window cf then Ok true w []
    else Ok false (set_mailSent (<[addr := Now rt]> (pkg_mailSent w)) w) [].
Proof.
  unfold rateLimited. rewrite bind_runtime, bind_get_world.
  change (if MailRateLimit cf =? 0 then rateLimit else MailRateLimit cf)
    with (window cf).
  change (match pkg_mailSent w !! addr with Some t => t | None => zeroTime end)
    with (lastSent w addr).
  unfold Time_After, Time_Add. rewrite Z.leb_antisym.
  destruct (lastSent w addr + window cf <? Now rt); reflexivity.
Qed.

(** C2.  The rate-limit check blocks, leaving the ledger (and the rest
    of the state) unchanged, if and only if the current time is at or
    before [lastSent[recipient] + window]; otherwise it records the
    current time as the new [lastSent[recipient]] and permits the send;
    the window is one minute when the configured one is zero. *)
Theorem rateLimited_spec (cf : Config) (addr : string) (rt : Runtime) (w : World) :
  exists blocked w',
    rateLimited cf addr rt w = Ok blocked w' [] /\
    (blocked = true <-> Now rt <= lastSent w addr + window cf) /\
    (blocked = true -> w' = w) /\
    (blocked = false ->
       w' = set_mailSent (<[addr := Now rt]> (pkg_mailSent w)) w /\
       lastSent w' addr = Now rt) /\
    (MailRateLimit cf = 0 -> window cf = Minute) /\
    (MailRateLimit cf <> 0 -> window cf = MailRateLimit cf).
Proof.
  assert (Hw0 : MailRateLimit cf = 0 -> window cf = Minute).
  { intros H. unfold window. rewrite H. reflexivity. }
  assert (Hw1 : MailRateLimit cf <> 0 -> window cf = MailRateLimit cf).
  { intros H. unfold window. destruct (Z.eqb_spec (MailRateLimit cf) 0); congruence. }
  rewrite rateLimited_run.
  destruct (Z.leb_spec (Now rt) (lastSent w addr + window cf)) as [Hle|Hgt].
  - exists true, w. split; [reflexivity|]. repeat split; try congruence; lia.
  - exists false, (set_mailSent (<[addr := Now rt]> (pkg_mailSent w)) w).
    split; [reflexivity|]. repeat split; try congruence; try lia.
    unfold lastSent. cbn. rewrite lookup_insert_eq. reflexivity.
Qed.

(** The scenario of the specification: after a permitted send at time
    [t0], a check at most a window later is blocked, and a check
    strictly more than a window later is permitted again. *)
Lemma rateLimited_sequence cf addr rt0 rt1 w :
  lastSent w addr + window cf < Now rt0 ->
  let w1 := set_mailSent (<[addr := Now rt0]> (pkg_mailSent w)) w in
  rateLimited cf addr rt0 w = Ok false w1 [] /\
  (Now rt1 <= Now rt0 + window cf -> rateLimited cf addr rt1 w1 = Ok true w1 []) /\
  (Now rt0 + window cf < Now rt1 ->
     exists w2, rateLimited cf addr rt1 w1 = Ok false w2 []).
Proof.
  intros H0 w1.
  assert (Hl : lastSent w1 addr = Now rt0).
  { unfold lastSent. subst w1. cbn. rewrite lookup_insert_eq. reflexivity. }
  rewrite !rateLimited_run, Hl. split; [|split].
  - destruct (Z.leb_spec (Now rt0) (lastSent w addr + window cf)); [lia|reflexivity].
  - intros Hle.
    destruct (Z.leb_spec (Now rt1) (Now rt0 + window cf)); [reflexivity|lia].
  - intros Hgt.
    destruct (Z.leb_spec (Now rt1) (Now rt0 + window cf)); [lia|eauto].
Qed.

(** ** Failures that reach the caller *)

(** C3.  A levelled call with the empty format string does not
    complete: [format[len(format)-1]] is evaluated without a length
    check and the call panics with "index out of range", before any
    sink is written.  Shown for [Verbose] on every handle and state,
    and for the package-level [Verbose]. *)
Theorem empty_format_panics (d : loc) (args : list value) (rt : Runtime) (w : World) :
  Diag_Verbose d EmptyString args rt w = Abort (Panic "index out of range") w [] /\
  Verbose EmptyString args rt w = Abort (Panic "index out of range") w [].
Proof.
  assert (H : forall d', Diag_Verbose d' EmptyString args rt w
                         = Abort (Panic "index out of range") w []).
  { intros d'. unfold Diag_Verbose, diag. rewrite bind_runtime.
    cbn [withInfo].
    rewrite (bind_Ok_nil _ _ rt w EmptyString w) by reflexivity.
    apply bind_Abort. reflexivity. }
  split; [apply H|].
  unfold Verbose. rewrite bind_get_world. apply H.
Qed.

(** The other kinds panic in the same way on a live handle whose call
    site resolves. *)
Lemma every_kind_panics_on_empty_format k d dv args rt w pre :
  heap w !! d = Some dv ->
  prefix_of (policy k) rt dv = Some pre ->
  diag (policy k) d EmptyString args rt w = Abort (Panic "index out of range") w [].
Proof.
  intros Hd Hp. rewrite (diag_run rt w d dv Hd), Hp. reflexivity.
Qed.

(** ** Handles *)

Lemma alloc_run v rt w :
  let n := fresh (dom (heap w)) in
  alloc v rt w = Ok n (set_heap (<[n := v]> (heap w)) w) [] /\ heap w !! n = None.
Proof.
  cbv zeta. split; [reflexivity|].
  apply not_elem_of_dom, is_fresh.
Qed.

Lemma store_live d dv v rt w :
  heap w !! d = Some dv ->
  store d v rt w = Ok tt (set_heap (<[d := v]> (heap w)) w) [].
Proof. intros H. unfold store. rewrite bind_get_world, H. reflexivity. Qed.

(** C4 (amended).  The deriving mutators [WithMailTo], [WithMailFrom]
    and the method [Logger] return a new handle, a copy of the original
    in which one field is overridden, and leave the original handle,
    every other handle and the package state unchanged.  [SetDebugAll]
    and [SetStderr] return nothing: they assign the flag of the handle
    they are called on, in place, and leave its other fields and every
    other handle unchanged. *)
Theorem handle_mutators (d : loc) (dv : Diag) (e sect : string) (x : bool)
    (rt : Runtime) (w : World) :
  heap w !! d = Some dv ->
  let derived (c : M loc) (v : Diag) :=
    exists n w',
      c rt w = Ok n w' [] /\
      heap w !! n = None /\
      heap w' !! n = Some v /\
      (forall p, p <> n -> heap w' !! p = heap w !! p) /\
      heap w' !! d = Some dv /\
      globals w' = globals w in
  let assigned (c : M unit) (v : Diag) :=
    exists w',
      c rt w = Ok tt w' [] /\
      heap w' !! d = Some v /\
      (forall p, p <> d -> heap w' !! p = heap w !! p) /\
      globals w' = globals w in
  derived (Diag_WithMailTo d e)
    (mkDiag (section dv) (uplevel dv) e (mailFrom dv) (progname dv)
            (debugAll dv) (useStderr dv)) /\
  derived (Diag_WithMailFrom d e)
    (mkDiag (section dv) (uplevel dv) (mailTo dv) e (progname dv)
            (debugAll dv) (useStderr dv)) /\
  derived (Diag_Logger d sect)
    (mkDiag sect (uplevel dv) (mailTo dv) (mailFrom dv) (progname dv)
            (debugAll dv) (useStderr dv)) /\
  assigned (Diag_SetDebugAll d x)
    (mkDiag (section dv) (uplevel dv) (mailTo dv) (mailFrom dv) (progname dv)
            x (useStderr dv)) /\
  assigned (Diag_SetStderr d x)
    (mkDiag (section dv) (uplevel dv) (mailTo dv) (mailFrom dv) (progname dv)
            (debugAll dv) x).
Proof.
  intros Hd derived assigned.
  assert (Hder : forall v, derived (n <~ load d; alloc (v n)) (v dv)).
  { intros v. unfold derived.
    rewrite (bind_Ok_nil _ _ rt w dv w (load_live _ _ _ _ Hd)).
    destruct (alloc_run (v dv) rt w) as [Ha Hn].
    eexists _, _. split; [exact Ha|]. split; [exact Hn|].
    cbn [heap set_heap]. split; [apply lookup_insert_eq|].
    split; [intros p Hp; apply lookup_insert_ne; congruence|].
    split; [|reflexivity].
    rewrite lookup_insert_ne; [exact Hd|]. intros Heq. congruence. }
  assert (Hasg : forall v, assigned (dv <~ load d; store d (v dv)) (v dv)).
  { intros v. unfold assigned.
    rewrite (bind_Ok_nil _ _ rt w dv w (load_live _ _ _ _ Hd)).
    rewrite (store_live d dv _ rt w Hd).
    eexists. split; [reflexivity|]. cbn [heap set_heap].
    split; [apply lookup_insert_eq|].
    split; [intros p Hp; apply lookup_insert_ne; congruence|reflexivity]. }
  repeat split.
  - exact (Hder (set_mailTo e)).
  - exact (Hder (set_mailFrom e)).
  - exact (Hder (set_section sect)).
  - exact (Hasg (set_debugAll x)).
  - exact (Hasg (set_useStderr x)).
Qed.

(** A handle derived from a parent shares no state with it: assigning a
    flag of the child in place leaves the parent as it was. *)
Lemma derived_handle_independent d dv e x rt w :
  heap w !! d = Some dv ->
  exists n w',
    (n <~ Diag_WithMailTo d e; _ <~ Diag_SetDebugAll n x; ret n) rt w = Ok n w' [] /\
    n <> d /\
    heap w' !! d = Some dv /\
    heap w' !! n = Some (set_debugAll x (set_mailTo e dv)).
Proof.
  intros Hd.
  unfold Diag_WithMailTo at 1.
  destruct (alloc_run (set_mailTo e dv) rt w) as [Ha Hn].
  set (n := fresh (dom (heap w))) in *.
  set (w1 := set_heap (<[n := set_mailTo e dv]> (heap w)) w) in *.
  assert (Hnd : n <> d) by congruence.
  assert (H1 : Diag_WithMailTo d e rt w = Ok n w1 []).
  { unfold Diag_WithMailTo.
    rewrite (bind_Ok_nil _ _ rt w dv w (load_live _ _ _ _ Hd)). exact Ha. }
  assert (Hn1 : heap w1 !! n = Some (set_mailTo e dv)) by apply lookup_insert_eq.
  assert (H2 : Diag_SetDebugAll n x rt w1
               = Ok tt (set_heap (<[n := set_debugAll x (set_mailTo e dv)]> (heap w1)) w1) []).
  { unfold Diag_SetDebugAll.
    rewrite (bind_Ok_nil _ _ rt w1 _ w1 (load_live _ _ _ _ Hn1)).
    apply (store_live n _ _ rt w1 Hn1). }
  exists n. eexists. split.
  - fold (Diag_WithMailTo d e).
    rewrite (bind_Ok_nil _ _ rt w n w1 H1).
    rewrite (bind_Ok_nil _ _ rt w1 tt _ H2). reflexivity.
  - split; [exact Hnd|]. subst w1. cbn [heap set_heap]. split.
    + rewrite !lookup_insert_ne by congruence. exact Hd.
    + apply lookup_insert_eq.
Qed.

(** C4, as stated, fails for [SetDebugAll]: on the default handle of
    the initial state it returns no handle, allocates none, and the
    handle it was called on has its [debugAll] field changed. *)
Lemma SetDebugAll_in_place :
  match Diag_SetDebugAll 0%nat true rt_ex w_ex with
  | Ok _ w' _ =>
      debugAll <$> heap w_ex !! 0%nat = Some false /\
      debugAll <$> heap w' !! 0%nat = Some true /\
      size (heap w') = size (heap w_ex)
  | Abort _ _ _ => False
  end.
Proof. vm_compute. repeat split. Qed.

Lemma handle_mutators_witness :
  heap w_ex !! 0%nat = Some (mkDiag "default" 3 "" "" "" false true) /\
  exists n w',
    Diag_WithMailTo 0%nat "ops@company" rt_ex w_ex = Ok n w' [] /\
    heap w' !! 0%nat = Some (mkDiag "default" 3 "" "" "" false true) /\
    heap w' !! n = Some (mkDiag "default" 3 "ops@company" "" "" false true).
Proof.
  split; [reflexivity|].
  destruct (handle_mutators 0%nat (mkDiag "default" 3 "" "" "" false true)
              "ops@company" "api" true rt_ex w_ex eq_refl)
    as [(n & w' & H1 & _ & H3 & _ & H5 & _) _].
  exists n, w'. split; [exact H1|]. split; [exact H5|exact H3].
Defined.

(** ** The debug gate *)

Lemma Diag_Debug_run d dv c format args rt w :
  heap w !! d = Some dv -> pkg_config w = Some c ->
  Diag_Debug d format args rt w =
    if quiet dv c then Ok tt w []
    else diag (policy KDebug) d format args rt w.
Proof.
  intros Hd Hc. unfold Diag_Debug, quiet.
  rewrite (bind_Ok_nil getConfig _ rt w (pkg_config w) w) by reflexivity.
  rewrite (bind_Ok_nil _ _ rt w dv w) by (apply load_live, Hd).
  rewrite Hc.
  destruct (debugAll dv); cbn [negb andb].
  - rewrite (bind_Ok_nil _ _ rt w false w) by reflexivity. reflexivity.
  - rewrite (bind_Ok_nil _ _ rt w
               (negb (mapGet (Debug c) (section dv)) && negb (mapGet (Debug c) "all")) w)
      by reflexivity.
    destruct (negb (mapGet (Debug c) (section dv)) && negb (mapGet (Debug c) "all"));
      reflexivity.
Qed.

(** C5.  On a live handle, with a configuration in place, a Debug call
    is suppressed (it returns at once: nothing is formatted, no sink is
    written) if the handle's [debugAll] is false and the debug map has
    [true] neither for the handle's section nor for "all"; otherwise it
    dispatches.  With stderr enabled and a format and call site that
    format, the message reaches stderr if and only if the call is not
    suppressed.  The gate reads the configuration of the moment of the
    call: a flag set by [SetDebugFlag], or a configuration installed by
    [SetConfig], before the call is the one consulted. *)
Theorem debug_gate (d : loc) (dv : Diag) (c : Config) (format : string)
    (args : list value) (rt : Runtime) (w : World) :
  heap w !! d = Some dv ->
  pkg_config w = Some c ->
  (suppressed dv c -> Diag_Debug d format args rt w = Ok tt w []) /\
  (~ suppressed dv c ->
     Diag_Debug d format args rt w = diag (policy KDebug) d format args rt w) /\
  (forall pre,
     useStderr dv = true -> format <> EmptyString ->
     prefix_of (policy KDebug) rt dv = Some pre ->
     (EvStderr (pre +:+ Sprintf rt (chomp format) args)
        ∈ trace_of (Diag_Debug d format args rt w)
      <-> ~ suppressed dv c)) /\
  (forall f v m,
     Debug c = Some m ->
     let c' := set_Debug (Some (<[f := v]> m)) c in
     (_ <~ SetDebugFlag f v; Diag_Debug d format args) rt w
     = Diag_Debug d format args rt (set_config (Some c') w)) /\
  (forall c',
     exists w',
       SetConfig c' rt w = Ok tt w' [] /\
       pkg_config w' = Some c' /\ heap w' = heap w /\
       (_ <~ SetConfig c'; Diag_Debug d format args) rt w
       = Diag_Debug d format args rt w').
Proof.
  intros Hd Hc.
  pose proof (Diag_Debug_run d dv c format args rt w Hd Hc) as Hrun.
  pose proof (quiet_suppressed dv c) as Hq.
  split; [|split; [|split; [|split]]].
  - intros Hs. apply Hq in Hs. rewrite Hrun, Hs. reflexivity.
  - intros Hs. rewrite Hrun. destruct (quiet dv c); [|reflexivity].
    exfalso. apply Hs, Hq. reflexivity.
  - intros pre Hu Hne Hp. rewrite Hrun.
    destruct (quiet dv c) eqn:E.
    + cbn [trace_of]. split.
      * intros H. apply not_elem_of_nil in H. contradiction.
      * intros H. exfalso. apply H, Hq. reflexivity.
    + split; [intros _ Hs; apply Hq in Hs; congruence|]. intros _.
      rewrite (diag_run rt w d dv Hd), Hp.
      destruct (String.eqb_spec format "") as [->|_]; [congruence|].
      rewrite (fanout_run rt w d dv Hd). cbn [policy toEmail trace_of].
      apply elem_of_app. left. unfold stderr_events.
      cbn [toStderr andb]. rewrite Hu. apply list_elem_of_here.
  - intros f v m Hm c'.
    assert (Hs : SetDebugFlag f v rt w = Ok tt (set_config (Some c') w) []).
    { unfold SetDebugFlag. rewrite bind_get_world, Hc.
      rewrite (bind_Ok_nil _ _ rt w c w) by reflexivity.
      rewrite Hm. reflexivity. }
    exact (bind_Ok_nil _ (fun _ => Diag_Debug d format args) rt w tt _ Hs).
  - intros c'.
    assert (Hs : exists w', SetConfig c' rt w = Ok tt w' []
                            /\ pkg_config w' = Some c' /\ heap w' = heap w).
    { unfold SetConfig, openSyslog. run.
      destruct (bool_decide (pkg_slog w = None)); cbn -[prioName].
      - destruct (prioName !! ToLower rt (Facility c')); cbn;
          eexists; (split; [reflexivity|]); cbn; auto.
      - eexists; (split; [reflexivity|]); cbn; auto. }
    destruct Hs as (w' & Hs & Hc' & Hh).
    exists w'. split; [exact Hs|]. split; [exact Hc'|]. split; [exact Hh|].
    exact (bind_Ok_nil _ (fun _ => Diag_Debug d format args) rt w tt _ Hs).
Qed.

Lemma debug_gate_witness :
  heap w_cfg !! 0%nat = Some (mkDiag "default" 3 "" "" "" false true) /\
  pkg_config w_cfg = Some cfg_ex /\
  Diag_Debug 0%nat "deplenation" [] rt_ex w_cfg = Ok tt w_cfg [].
Proof.
  split; [reflexivity|]. split; [reflexivity|].
  refine (proj1 (debug_gate 0%nat (mkDiag "default" 3 "" "" "" false true)
                   cfg_ex "deplenation" [] rt_ex w_cfg eq_refl eq_refl) _).
  split; [reflexivity|].
  split; intros (g & Hg & Hk); injection Hg as <-; vm_compute in Hk; discriminate.
Defined.

(** C10.  [SetDebugFlag] panics ("assignment to entry in nil map") in
    every state whose configuration has a nil debug map: in particular
    in the initial state, and after a [SetConfig] whose [Debug] field
    was left nil. *)
Theorem SetDebugFlag_nil_map (f : string) (v : bool) (rt : Runtime)
    (w : World) (c : Config) :
  pkg_config w = Some c -> Debug c = None ->
  SetDebugFlag f v rt w = Abort (Panic "assignment to entry in nil map") w [] /\
  (forall host prog,
     SetDebugFlag f v rt (world0 host prog)
     = Abort (Panic "assignment to entry in nil map") (world0 host prog) []) /\
  (forall w0, exists w1,
     SetConfig c rt w0 = Ok tt w1 [] /\
     (_ <~ SetConfig c; SetDebugFlag f v) rt w0
     = Abort (Panic "assignment to entry in nil map") w1 []).
Proof.
  intros Hc Hn.
  assert (H : forall w' c', pkg_config w' = Some c' -> Debug c' = None ->
              SetDebugFlag f v rt w'
              = Abort (Panic "assignment to entry in nil map") w' []).
  { intros w' c' Hc' Hn'. unfold SetDebugFlag. rewrite bind_get_world, Hc'.
    rewrite (bind_Ok_nil _ _ rt w' c' w') by reflexivity.
    rewrite Hn'. reflexivity. }
  split; [exact (H w c Hc Hn)|]. split.
  - intros host prog. apply (H _ Config_zero); reflexivity.
  - intros w0.
    assert (Hs : exists w1, SetConfig c rt w0 = Ok tt w1 [] /\ pkg_config w1 = Some c).
    { unfold SetConfig, openSyslog. run.
      destruct (bool_decide (pkg_slog w0 = None)); cbn -[prioName].
      - destruct (prioName !! ToLower rt (Facility c)); cbn;
          eexists; (split; [reflexivity|]); reflexivity.
      - eexists; (split; [reflexivity|]); reflexivity. }
    destruct Hs as (w1 & Hs & Hc1). exists w1. split; [exact Hs|].
    unfold bind. rewrite Hs, (H w1 c Hc1 Hn). reflexivity.
Qed.

Lemma SetDebugFlag_nil_map_witness :
  pkg_config w_ex = Some Config_zero /\ Debug Config_zero = None /\
  SetDebugFlag "encabulator" true rt_ex w_ex
  = Abort (Panic "assignment to entry in nil map") w_ex [].
Proof.
  split; [reflexivity|]. split; [reflexivity|].
  exact (proj1 (SetDebugFlag_nil_map "encabulator" true rt_ex w_ex Config_zero
                  eq_refl eq_refl)).
Defined.

(** ** The email path *)

(** The four [Fprintf] calls of the goroutine in [sendEmail]. *)
Lemma Sprintf_headers rt a b c :
  Sprintf rt (lit "To: %s\nFrom: %s\nSubject: %s daemon error\n\n")
    [VStr a; VStr b; VStr c]
  = lit "To: " +:+ a +:+ lit "\nFrom: " +:+ b +:+ lit "\nSubject: " +:+ c
    +:+ lit " daemon error\n\n".
Proof. reflexivity. Qed.

Lemma Sprintf_body rt a b n :
  Sprintf rt (lit "an error was detected in %s\n\nhost:   %s\npid:    %d\n\n")
    [VStr a; VStr b; VInt n]
  = lit "an error was detected in " +:+ a +:+ lit "\n\nhost:   " +:+ b
    +:+ lit "\npid:    " +:+ Itoa n +:+ lit "\n\n".
Proof. reflexivity. Qed.

Lemma Sprintf_error rt a :
  Sprintf rt (lit "error:\n%s\n") [VStr a] = lit "error:\n" +:+ a +:+ lit "\n".
Proof. reflexivity. Qed.

Lemma Sprintf_stack rt a :
  Sprintf rt (lit "\n\n%s\n") [VStr a] = lit "\n\n" +:+ a +:+ lit "\n".
Proof. reflexivity. Qed.

(** The message fed to the mail transport: headers, blank line, body,
    and the stack dump only when asked for. *)
Lemma mail_message_text rt host e txt trace :
  mail_message rt host e txt trace =
    lit "To: " +:+ mailTo e +:+ lit "\nFrom: " +:+ mailFrom e
    +:+ lit "\nSubject: " +:+ progname e +:+ lit " daemon error\n\n"
    +:+ lit "an error was detected in " +:+ progname e
    +:+ lit "\n\nhost:   " +:+ host +:+ lit "\npid:    " +:+ Itoa (Getpid rt)
    +:+ lit "\n\n" +:+ lit "error:\n" +:+ txt +:+ lit "\n"
    +:+ (if trace then lit "\n\n" +:+ Stack rt stackMax +:+ lit "\n" else "").
Proof.
  unfold mail_message.
  rewrite Sprintf_headers, Sprintf_body, Sprintf_error, Sprintf_stack.
  rewrite !append_assoc. reflexivity.
Qed.

(** C8.  In the email path the effective mailTo and mailFrom are the
    handle's overrides when non-empty, else the configuration's.  If
    either is empty the step returns at once: no event (no mail
    transport is started), the state and the ledger unchanged, and the
    outcome is the same whatever the ledger and the clock hold (the
    ledger is not consulted).  If both are non-empty the rate limiter
    is consulted for the effective mailTo, and when it permits, the
    transport is started with the effective addresses. *)
Theorem sendEmail_addresses (d : loc) (dv : Diag) (c : Config) (txt : string)
    (trace : bool) (rt : Runtime) (w : World) :
  heap w !! d = Some dv ->
  pkg_config w = Some c ->
  let to := effective_mailTo c dv in
  let from := effective_mailFrom c dv in
  let e := effective c (pkg_progname w) dv in
  (to = (if decide (mailTo dv = EmptyString) then MailTo c else mailTo dv)) /\
  (from = (if decide (mailFrom dv = EmptyString) then MailFrom c else mailFrom dv)) /\
  (to = EmptyString \/ from = EmptyString ->
     sendEmail d txt trace rt w = Ok tt w [] /\
     forall rt' ledger,
       sendEmail d txt trace rt' (set_mailSent ledger w)
       = Ok tt (set_mailSent ledger w) []) /\
  (to <> EmptyString -> from <> EmptyString ->
     mailTo e = to /\ mailFrom e = from /\
     sendEmail d txt trace rt w =
       (limited <~ rateLimited c to;
        if limited then ret tt else emit (mail_event rt w c e txt trace)) rt w /\
     sendEmail d txt trace rt w =
       if Now rt <=? lastSent w to + window c then Ok tt w []
       else Ok tt (set_mailSent (<[to := Now rt]> (pkg_mailSent w)) w)
               [mail_event rt w c e txt trace]).
Proof.
  intros Hd Hc to from e.
  assert (Hto : to = (if decide (mailTo dv = EmptyString) then MailTo c else mailTo dv)).
  { subst to. unfold effective_mailTo.
    destruct (String.eqb_spec (mailTo dv) ""), (decide (mailTo dv = ""));
      congruence. }
  assert (Hfrom : from = (if decide (mailFrom dv = EmptyString)
                          then MailFrom c else mailFrom dv)).
  { subst from. unfold effective_mailFrom.
    destruct (String.eqb_spec (mailFrom dv) ""), (decide (mailFrom dv = ""));
      congruence. }
  split; [exact Hto|]. split; [exact Hfrom|]. split.
  - intros Hempty.
    assert (Hor : String.eqb to "" || String.eqb from "" = true).
    { destruct Hempty as [-> | ->]; [reflexivity|].
      apply orb_true_r. }
    split.
    + rewrite (sendEmail_run rt w d dv Hd), Hc. cbv zeta.
      change (mailTo (effective c (pkg_progname w) dv)) with to.
      change (mailFrom (effective c (pkg_progname w) dv)) with from.
      rewrite Hor. reflexivity.
    + intros rt' ledger.
      rewrite (sendEmail_run rt' (set_mailSent ledger w) d dv Hd).
      cbn [pkg_config set_mailSent pkg_progname]. rewrite Hc. cbv zeta.
      change (mailTo (effective c (pkg_progname w) dv)) with to.
      change (mailFrom (effective c (pkg_progname w) dv)) with from.
      rewrite Hor. reflexivity.
  - intros Hnt Hnf.
    assert (Hor : String.eqb to "" || String.eqb from "" = false).
    { destruct (String.eqb_spec to ""), (String.eqb_spec from "");
        try contradiction; reflexivity. }
    assert (Hclosed : sendEmail d txt trace rt w =
              if Now rt <=? lastSent w to + window c then Ok tt w []
              else Ok tt (set_mailSent (<[to := Now rt]> (pkg_mailSent w)) w)
                      [mail_event rt w c e txt trace]).
    { rewrite (sendEmail_run rt w d dv Hd), Hc. cbv zeta.
      change (mailTo (effective c (pkg_progname w) dv)) with to.
      change (mailFrom (effective c (pkg_progname w) dv)) with from.
      rewrite Hor. reflexivity. }
    split; [reflexivity|]. split; [reflexivity|]. split; [|exact Hclosed].
    rewrite Hclosed. unfold bind. rewrite rateLimited_run.
    destruct (Now rt <=? lastSent w to + window c); reflexivity.
Qed.

Lemma sendEmail_addresses_witness :
  heap w_ex !! 0%nat = Some (mkDiag "default" 3 "" "" "" false true) /\
  pkg_config w_ex = Some Config_zero /\
  sendEmail 0%nat "boom" true rt_ex w_ex = Ok tt w_ex [].
Proof.
  split; [reflexivity|]. split; [reflexivity|].
  destruct (sendEmail_addresses 0%nat (mkDiag "default" 3 "" "" "" false true)
              Config_zero "boom" true rt_ex w_ex eq_refl eq_refl)
    as (_ & _ & H & _).
  exact (proj1 (H (or_introl eq_refl))).
Defined.

(** ** The text handed to the sinks *)

Lemma prefix_not_newline cf rt dv pre :
  prefix_of cf rt dv = Some pre -> last_byte pre <> Some NL.
Proof.
  unfold prefix_of, callsite_prefix. intros H.
  destruct (withInfo cf); [|injection H as <-; discriminate].
  destruct (Caller rt (uplevel dv)) as [fr|]; [|injection H as <-; discriminate].
  destruct (cleanFilename (file fr)) as [fs|]; [|discriminate].
  destruct (fn fr) as [name|].
  - destruct (cleanFunName name) as [f|]; [|discriminate].
    injection H as <-.
    rewrite (last_byte_app_r fs _ " "); [discriminate|].
    apply (last_byte_app_r ":"), last_byte_app_r.
    apply (last_byte_app_r " "), last_byte_app_r. reflexivity.
  - injection H as <-.
    rewrite (last_byte_app_r fs _ " "); [discriminate|].
    apply (last_byte_app_r ":"), last_byte_app_r. reflexivity.
Qed.

Lemma last_byte_prefixed pre s :
  last_byte pre <> Some NL ->
  (last_byte (pre +:+ s) = Some NL <-> last_byte s = Some NL).
Proof.
  intros Hpre. destruct s as [|c s].
  - assert (Happ : pre +:+ "" = pre).
    { clear Hpre. induction pre as [|a pre IH]; [reflexivity|].
      change (String a (pre +:+ "") = String a pre). rewrite IH. reflexivity. }
    rewrite Happ. split; [contradiction|discriminate].
  - rewrite last_byte_app by discriminate. reflexivity.
Qed.

(** C7 (amended).  On a live handle, for a non-empty format and a call
    site whose prefix can be computed, the levelled call completes and
    every sink receives the same text: the call-site prefix followed by
    the formatting of the format string from which one trailing
    newline, if present, has been removed.  That text ends with a
    newline exactly when the formatted message itself does. *)
Theorem sink_text_chomped (cf : logconf) (d : loc) (dv : Diag)
    (format : string) (args : list value) (rt : Runtime) (w : World)
    (pre : string) :
  heap w !! d = Some dv ->
  prefix_of cf rt dv = Some pre ->
  format <> EmptyString ->
  let out := pre +:+ Sprintf rt (chomp format) args in
  (exists w' tr,
     diag cf d format args rt w = Ok tt w' tr /\
     forall e, e ∈ tr -> handed out e) /\
  (last_byte out = Some NL <->
   last_byte (Sprintf rt (chomp format) args) = Some NL) /\
  (forall s, format = s +:+ String NL EmptyString -> chomp format = s) /\
  (last_byte format <> Some NL -> chomp format = format).
Proof.
  intros Hd Hp Hne out. split; [|split; [|split]].
  - rewrite (diag_run rt w d dv Hd), Hp.
    destruct (String.eqb_spec format "") as [->|_]; [congruence|].
    destruct (fanout_ok rt w d dv Hd cf out) as (w' & tr & Hf & _ & Hh).
    exists w', tr. split; [exact Hf|exact Hh].
  - apply last_byte_prefixed. eapply prefix_not_newline, Hp.
  - intros s ->. apply chomp_newline.
  - apply chomp_other.
Qed.

Lemma sink_text_chomped_witness :
  heap w_ex !! 0%nat = Some (mkDiag "default" 3 "" "" "" false true) /\
  prefix_of (policy KProblem) rt_ex (mkDiag "default" 3 "" "" "" false true)
  = Some "pkg/file.go:42 Handler(): "%string /\
  lit "x=%d\n" <> EmptyString /\
  exists w' tr,
    diag (policy KProblem) 0%nat (lit "x=%d\n") [VInt 5] rt_ex w_ex = Ok tt w' tr /\
    forall e, e ∈ tr -> handed "pkg/file.go:42 Handler(): x=5" e.
Proof.
  split; [reflexivity|]. split; [reflexivity|]. split; [discriminate|].
  refine (proj1 (sink_text_chomped (policy KProblem) 0%nat
                   (mkDiag "default" 3 "" "" "" false true)
                   (lit "x=%d\n") [VInt 5] rt_ex w_ex
                   "pkg/file.go:42 Handler(): " eq_refl eq_refl _)).
  discriminate.
Defined.

(** C7, as stated, fails: only one trailing newline is removed from the
    format, so a format ending in two newlines reaches stderr with a
    trailing newline. *)
Lemma double_newline_kept :
  Diag_Verbose 0%nat (lit "boom\n\n") [] rt_ex w_ex
  = Ok tt w_ex [EvStderr (lit "boom\n")] /\
  last_byte (lit "boom\n") = Some NL.
Proof. split; vm_compute; reflexivity. Qed.

(** The same through an argument: the format has no newline at all. *)
Lemma argument_newline_kept :
  Diag_Verbose 0%nat "%s" [VStr (lit "boom\n")] rt_ex w_ex
  = Ok tt w_ex [EvStderr (lit "boom\n")].
Proof. vm_compute. reflexivity. Qed.

(** ** Configuration *)



(** The facility of the README example, in three spellings, and the
    writer that [SetConfig] opens for it. *)
Lemma SetConfig_local5 :
  prioName !! ToLower rt_ex "local5" = Some LOG_LOCAL5 /\
  prioName !! ToLower rt_ex "Local5" = Some LOG_LOCAL5 /\
  prioName !! ToLower rt_ex "LOCAL5" = Some LOG_LOCAL5 /\
  prioName !! ToLower rt_ex "local8" = None /\
  SetConfig cfg_ex rt_ex w_ex
  = Ok tt (set_slog (Some (mkWriter LOG_LOCAL5 "prog"))
             (set_config (Some cfg_ex) w_ex)) [].
Proof. repeat split; vm_compute; reflexivity. Qed.

(** ** The call-site prefix *)

(** The scan of [LastIndex] from position [i] with default [acc] is the
    scan from 0 with default -1, shifted. *)
Lemma LastIndex_from_shift s sep i acc :
  let r := LastIndex_from s sep 0 (-1) in
  (r = -1 \/ 0 <= r) /\
  LastIndex_from s sep i acc = if r =? -1 then acc else i + r.
Proof.
  revert i acc. induction s as [|c s IH]; intros i acc.
  - cbn [LastIndex_from]. destruct (String.prefix sep ""); cbn; split; auto; lia.
  - cbn [LastIndex_from]. cbv zeta.
    destruct (IH (0 + 1) (if String.prefix sep (String c s) then 0 else -1)) as [Hr H1].
    destruct (IH (i + 1) (if String.prefix sep (String c s) then i else acc))
      as [_ H2].
    cbv zeta in Hr, H1, H2. rewrite H1, H2.
    destruct (Z.eqb_spec (LastIndex_from s sep 0 (-1)) (-1)) as [E|E].
    + destruct (String.prefix sep (String c s)); cbn; split; auto; lia.
    + assert (E1 : (0 + 1 + LastIndex_from s sep 0 (-1) =? -1) = false)
        by (apply Z.eqb_neq; lia).
      rewrite E1. split; [right; lia|lia].
Qed.

Lemma LastIndex_root name :
  LastIndex name "/" = -1 -> LastIndex (String "/" name) "/" = 0.
Proof.
  intros H. unfold LastIndex in *. cbn [LastIndex_from].
  destruct (LastIndex_from_shift name "/" (0 + 1)
              (if String.prefix "/" (String "/" name) then 0 else -1)) as [_ H1].
  assert (Hp : String.prefix "/" (String "/" name) = true)
    by (destruct name; reflexivity).
  cbv zeta in H1. rewrite H1, H, Hp. reflexivity.
Qed.

Lemma cleanFilename_root name :
  LastIndex name "/" = -1 -> cleanFilename (String "/" name) = None.
Proof.
  intros H. unfold cleanFilename. rewrite (LastIndex_root name H). reflexivity.
Qed.

(** C6.  For a caller that is resolved to a source file lying directly
    in the root directory ("/main.go"), no prefix is produced: the
    reduction of the file name evaluates [file[0:si-1]] with [si = 0]
    and the call panics with "slice bounds out of range", whatever the
    format, before any sink is written. *)
Theorem root_file_caller_panics (cf : logconf) (d : loc) (dv : Diag)
    (fr : Frame) (name format : string) (args : list value)
    (rt : Runtime) (w : World) :
  heap w !! d = Some dv ->
  withInfo cf = true ->
  Caller rt (uplevel dv) = Some fr ->
  file fr = String "/" name ->
  LastIndex name "/" = -1 ->
  cleanFilename (file fr) = None /\
  diag cf d format args rt w = Abort (Panic "slice bounds out of range") w [].
Proof.
  intros Hd Hi Hc Hf Hn.
  assert (Hcf : cleanFilename (file fr) = None)
    by (rewrite Hf; apply cleanFilename_root, Hn).
  split; [exact Hcf|].
  rewrite (diag_run rt w d dv Hd). unfold prefix_of, callsite_prefix.
  rewrite Hi, Hc, Hcf. reflexivity.
Qed.

Lemma root_file_caller_panics_witness :
  heap w_ex !! 0%nat = Some (mkDiag "default" 3 "" "" "" false true) /\
  Caller rt_root 3 = Some (mkFrame "/main.go" 7 (Some "main.main"%string)) /\
  LastIndex "main.go" "/" = -1 /\
  Diag_Problem 0%nat "disk full" [] rt_root w_ex
  = Abort (Panic "slice bounds out of range") w_ex [].
Proof.
  split; [reflexivity|]. split; [reflexivity|]. split; [reflexivity|].
  exact (proj2 (root_file_caller_panics (policy KProblem) 0%nat
                  (mkDiag "default" 3 "" "" "" false true)
                  (mkFrame "/main.go" 7 (Some "main.main"%string))
                  "main.go" "disk full" [] rt_root w_ex
                  eq_refl eq_refl eq_refl eq_refl eq_refl)).
Defined.

(** *** Where the reduction of names does what it is meant to do *)

Lemma prefix_byte c a s :
  String.prefix (String c EmptyString) (String a s) = Ascii.eqb a c.
Proof.
  cbn [String.prefix]. destruct (ascii_dec c a) as [->|Hne].
  - rewrite Ascii.eqb_refl. destruct s; reflexivity.
  - symmetry. apply Ascii.eqb_neq. congruence.
Qed.

(** With a one-byte separator [LastIndex] is [LastIndexByte]. *)
Lemma LastIndex_from_byte s c i acc :
  LastIndex_from s (String c EmptyString) i acc = LastIndexByte_from s c i acc.
Proof.
  revert i acc. induction s as [|a s IH]; intros i acc; [reflexivity|].
  cbn [LastIndex_from LastIndexByte_from]. rewrite prefix_byte. apply IH.
Qed.

Lemma LastIndex_byte s c : LastIndex s (String c EmptyString) = LastIndexByte s c.
Proof. apply LastIndex_from_byte. Qed.

Lemma len_app a b : len (a +:+ b) = len a + len b.
Proof.
  induction a as [|c a IH]; [reflexivity|].
  change (String c a +:+ b) with (String c (a +:+ b)).
  rewrite !len_String, IH. lia.
Qed.

Lemma LastIndexByte_from_app a b c i acc :
  LastIndexByte_from (a +:+ b) c i acc
  = LastIndexByte_from b c (i + len a) (LastIndexByte_from a c i acc).
Proof.
  revert i acc. induction a as [|x a IH]; intros i acc.
  - cbn [String.append LastIndexByte_from]. change (len "") with 0.
    rewrite Z.add_0_r. reflexivity.
  - change (String x a +:+ b) with (String x (a +:+ b)).
    cbn [LastIndexByte_from]. rewrite IH, len_String.
    replace (i + 1 + len a) with (i + (1 + len a)) by lia. reflexivity.
Qed.

Lemma LastIndexByte_from_absent s c i acc :
  LastIndexByte s c = -1 -> LastIndexByte_from s c i acc = acc.
Proof.
  unfold LastIndexByte. rewrite <- !LastIndex_from_byte. intros H.
  destruct (LastIndex_from_shift s (String c "") i acc) as [_ H1].
  cbv zeta in H1. rewrite H1, H. reflexivity.
Qed.

(** The last separator of [a ++ c ++ b] is at [len a] when [b] has none. *)
Lemma LastIndexByte_last a b c :
  LastIndexByte b c = -1 -> LastIndexByte (a +:+ String c b) c = len a.
Proof.
  intros Hb. unfold LastIndexByte. rewrite LastIndexByte_from_app.
  cbn [LastIndexByte_from]. rewrite Ascii.eqb_refl.
  rewrite (LastIndexByte_from_absent b c _ _ Hb). lia.
Qed.

Lemma substring_prefix a b : substring 0 (String.length a) (a +:+ b) = a.
Proof.
  induction a as [|c a IH]; [destruct b; reflexivity|].
  change (String c (substring 0 (String.length a) (a +:+ b)) = String c a).
  rewrite IH. reflexivity.
Qed.

Lemma substring_all b : substring 0 (String.length b) b = b.
Proof.
  induction b as [|c b IH]; [reflexivity|].
  change (String c (substring 0 (String.length b) b) = String c b).
  rewrite IH. reflexivity.
Qed.

Lemma substring_suffix a b :
  substring (String.length a) (String.length b) (a +:+ b) = b.
Proof.
  induction a as [|c a IH]; [apply substring_all|]. exact IH.
Qed.

(** [(a ++ b)[0:len(a)] = a] and [(a ++ b)[len(a):] = b]. *)
Lemma slice_prefix a b : slice (a +:+ b) 0 (len a) = Some a.
Proof.
  unfold slice. rewrite len_app.
  pose proof (len_nonneg a). pose proof (len_nonneg b).
  destruct (Z.leb_spec 0 0); [|lia].
  destruct (Z.leb_spec 0 (len a)); [|lia].
  destruct (Z.leb_spec (len a) (len a + len b)); [|lia].
  cbn [andb]. rewrite Z.sub_0_r. unfold len at 1. rewrite Nat2Z.id.
  change (Z.to_nat 0) with 0%nat. f_equal. apply substring_prefix.
Qed.

Lemma slice_from_suffix a b : slice_from (a +:+ b) (len a) = Some b.
Proof.
  unfold slice_from, slice. rewrite len_app.
  pose proof (len_nonneg a). pose proof (len_nonneg b).
  destruct (Z.leb_spec 0 (len a)); [|lia].
  destruct (Z.leb_spec (len a) (len a + len b)); [|lia].
  destruct (Z.leb_spec (len a + len b) (len a + len b)); [|lia].
  cbn [andb].
  replace (len a + len b - len a) with (len b) by lia.
  unfold len. rewrite !Nat2Z.id. f_equal. apply substring_suffix.
Qed.

(** A name without a slash is kept as it is. *)
Lemma cleanFilename_plain file :
  LastIndexByte file "/" = -1 -> cleanFilename file = Some file.
Proof.
  intros H. unfold cleanFilename. rewrite LastIndex_byte, H. reflexivity.
Qed.

(** A path with at least three segments is reduced to its last two,
    [dir/base]; [dir] is written [dir' ++ x] to single out its last
    byte, which the search for the second slash skips (were [x] itself
    a slash, the result would keep it). *)
Lemma cleanFilename_two_segments p dir' x base :
  LastIndexByte dir' "/" = -1 -> LastIndexByte base "/" = -1 ->
  cleanFilename (p +:+ String "/" (dir' +:+ String x (String "/" base)))
  = Some (dir' +:+ String x (String "/" base)).
Proof.
  intros Hdir Hbase.
  set (head := p +:+ String "/" dir').
  set (file := p +:+ String "/" (dir' +:+ String x (String "/" base))).
  pose proof (len_nonneg head). pose proof (len_nonneg p).
  assert (Hsi : LastIndexByte file "/" = len head + 1).
  { replace file with ((head +:+ String x "") +:+ String "/" base)
      by (subst head file; rewrite !append_assoc; reflexivity).
    rewrite (LastIndexByte_last _ base "/" Hbase), len_app. reflexivity. }
  assert (Hhead : slice file 0 (len head) = Some head).
  { replace file with (head +:+ String x (String "/" base))
      by (subst head file; rewrite !append_assoc; reflexivity).
    apply slice_prefix. }
  assert (Hssi : LastIndexByte head "/" = len p)
    by apply (LastIndexByte_last p dir' "/" Hdir).
  assert (Htail : slice_from file (len p + 1)
                  = Some (dir' +:+ String x (String "/" base))).
  { replace file with ((p +:+ "/") +:+ (dir' +:+ String x (String "/" base)))
      by (subst file; rewrite append_assoc; reflexivity).
    replace (len p + 1) with (len (p +:+ "/"))
      by (rewrite len_app; reflexivity).
    apply slice_from_suffix. }
  unfold cleanFilename. rewrite !LastIndex_byte. fold file. rewrite Hsi.
  destruct (Z.eqb_spec (len head + 1) (-1)); [lia|].
  replace (len head + 1 - 1) with (len head) by lia.
  rewrite Hhead, LastIndex_byte, Hssi.
  destruct (Z.eqb_spec (len p) (-1)); [lia|]. exact Htail.
Qed.

(** A relative path of exactly two segments loses its directory: the
    search for the second slash starts one byte too far to the left,
    which is harmless here, and finds none. *)
Lemma cleanFilename_relative dir' x base :
  LastIndexByte dir' "/" = -1 -> LastIndexByte base "/" = -1 ->
  cleanFilename (dir' +:+ String x (String "/" base)) = Some base.
Proof.
  intros Hdir Hbase.
  set (file := dir' +:+ String x (String "/" base)).
  pose proof (len_nonneg dir').
  assert (Hsi : LastIndexByte file "/" = len dir' + 1).
  { replace file with ((dir' +:+ String x "") +:+ String "/" base)
      by (subst file; rewrite !append_assoc; reflexivity).
    rewrite (LastIndexByte_last _ base "/" Hbase), len_app. reflexivity. }
  assert (Hhead : slice file 0 (len dir') = Some dir') by apply slice_prefix.
  assert (Htail : slice_from file (len dir' + 1 + 1) = Some base).
  { replace file with ((dir' +:+ String x "/") +:+ base)
      by (subst file; rewrite append_assoc; reflexivity).
    replace (len dir' + 1 + 1) with (len (dir' +:+ String x "/"))
      by (rewrite len_app; change (len (String x "/")) with 2; lia).
    apply slice_from_suffix. }
  unfold cleanFilename. rewrite !LastIndex_byte. fold file. rewrite Hsi.
  destruct (Z.eqb_spec (len dir' + 1) (-1)); [lia|].
  replace (len dir' + 1 - 1) with (len dir') by lia.
  rewrite Hhead, LastIndex_byte, Hdir. exact Htail.
Qed.

(** The function name loses its qualification up to the last dot. *)
Lemma cleanFunName_qualified q f :
  LastIndexByte f "." = -1 -> cleanFunName (q +:+ String "." f) = Some f.
Proof.
  intros Hf. unfold cleanFunName. rewrite (LastIndexByte_last q f "." Hf).
  pose proof (len_nonneg q).
  destruct (Z.eqb_spec (len q) (-1)); [lia|]. cbn [negb].
  replace (q +:+ String "." f) with ((q +:+ ".") +:+ f)
    by (rewrite append_assoc; reflexivity).
  replace (len q + 1) with (len (q +:+ "."))
    by (rewrite len_app; reflexivity).
  apply slice_from_suffix.
Qed.

Lemma cleanFunName_plain n :
  LastIndexByte n "." = -1 -> cleanFunName n = Some n.
Proof. intros H. unfold cleanFunName. rewrite H. reflexivity. Qed.

(** For a caller in [.../dir/base] and a function [pkg.f] the prefix is
    exactly [dir/base:line f(): ]. *)
Lemma callsite_prefix_format rt dv p dir' x base ln q f :
  Caller rt (uplevel dv)
  = Some (mkFrame (p +:+ String "/" (dir' +:+ String x (String "/" base))) ln
            (Some (q +:+ String "." f))) ->
  LastIndexByte dir' "/" = -1 -> LastIndexByte base "/" = -1 ->
  LastIndexByte f "." = -1 ->
  callsite_prefix rt dv
  = Some ((dir' +:+ String x (String "/" base)) +:+ ":" +:+ Itoa ln +:+ " "
          +:+ f +:+ "(): ").
Proof.
  intros Hc Hdir Hbase Hf. unfold callsite_prefix. rewrite Hc.
  cbn [file line fn].
  rewrite (cleanFilename_two_segments p dir' x base Hdir Hbase).
  rewrite (cleanFunName_qualified q f Hf). reflexivity.
Qed.

(** ** Scenarios of the specification *)

(** [Problem("x=%d", 5)] from [pkg/file.go:42] in [Handler]. *)
Example scenario_problem :
  Diag_Problem 0%nat "x=%d" [VInt 5] rt_ex w_ex
  = Ok tt w_ex [EvStderr "pkg/file.go:42 Handler(): x=5"].
Proof. vm_compute. reflexivity. Qed.

(** [Fatal("boom")] with no mail configured: stderr receives the
    message, no mail transport is started, the process exits. *)
Example scenario_fatal :
  Fatal "boom" [] rt_ex w_ex
  = Abort (Exit (-1)) w_ex [EvStderr "pkg/file.go:42 Handler(): boom"].
Proof. vm_compute. reflexivity. Qed.

(** [MailRateLimit = 0]; two [Bug] calls for the same recipient half a
    second apart: one mail transport invocation; a third call more than
    a minute after the first: a second invocation. *)
Example scenario_two_bugs :
  match Diag_Bug 0%nat "boom" [] (rt_at t_ex (Some frame_ex)) w_cfg with
  | Ok _ w1 tr1 =>
      match Diag_Bug 0%nat "boom" [] (rt_at (t_ex + 500000000) (Some frame_ex)) w1 with
      | Ok _ w2 tr2 =>
          match Diag_Bug 0%nat "boom" [] (rt_at (t_ex + 61 * Second) (Some frame_ex)) w2 with
          | Ok _ _ tr3 => (mails tr1, mails tr2, mails tr3) = (1, 0, 1)%nat
          | Abort _ _ _ => False
          end
      | Abort _ _ _ => False
      end
  | Abort _ _ _ => False
  end.
Proof. vm_compute. reflexivity. Qed.

(** The mail of a [Bug] call: transport, arguments and message. *)
Example scenario_bug_mail :
  trace_of (Diag_Bug 0%nat "boom" [] rt_ex w_cfg)
  = [ EvStderr "pkg/file.go:42 Handler(): boom";
      EvSendmail "sendmail" ["-t"; "-f"; "daemon@company"]%string
        (lit ("To: devteam@company\nFrom: daemon@company\n"
              +:+ "Subject: proggyd daemon error\n\n"
              +:+ "an error was detected in proggyd\n\n"
              +:+ "host:   host\npid:    4711\n\n"
              +:+ "error:\npkg/file.go:42 Handler(): boom\n"
              +:+ "\n\ngoroutine 1 [running]:\n")) ].
Proof. vm_compute. reflexivity. Qed.

(** * Further properties of the package *)

(** ** Reduction of function and file names *)

Lemma string_snoc s :
  s <> EmptyString ->
  exists s' c, s = s' +:+ String c EmptyString.
Proof.
  induction s as [|a s IH]; [congruence|]. intros _.
  destruct s as [|b s].
  - exists EmptyString, a. reflexivity.
  - destruct IH as (s' & c & Hs); [discriminate|].
    exists (String a s'), c. rewrite Hs. reflexivity.
Qed.

(** A string either has no byte [c], or splits at its last [c]. *)
Lemma LastIndexByte_split s c :
  LastIndexByte s c = -1 \/
  exists a b, s = a +:+ String c b /\ LastIndexByte b c = -1 /\
              LastIndexByte s c = len a.
Proof.
  induction s as [|x s IH]; [left; reflexivity|].
  destruct IH as [Hno|(a & b & Hs & Hb & _)].
  - destruct (Ascii.eqb_spec x c) as [->|Hne].
    + right. exists EmptyString, s. split; [reflexivity|]. split; [exact Hno|].
      apply (LastIndexByte_last EmptyString s c Hno).
    + left. unfold LastIndexByte. cbn [LastIndexByte_from].
      apply Ascii.eqb_neq in Hne. rewrite Hne.
      apply LastIndexByte_from_absent, Hno.
  - right. exists (String x a), b. split; [rewrite Hs; reflexivity|].
    split; [exact Hb|]. rewrite Hs.
    apply (LastIndexByte_last (String x a) b c Hb).
Qed.

(** X1.  [cleanFunName] never panics; what it returns has no dot, and
    the name it was given is that result, preceded by nothing or by a
    qualification that ends with a dot. *)
Theorem cleanFunName_unqualified (n : string) :
  exists r,
    cleanFunName n = Some r /\
    LastIndexByte r "." = -1 /\
    (n = r \/ exists q, n = q +:+ String "." r).
Proof.
  destruct (LastIndexByte_split n ".") as [Hno|(q & f & Hn & Hf & _)].
  - exists n. split; [apply cleanFunName_plain, Hno|]. split; [exact Hno|].
    left. reflexivity.
  - exists f. rewrite Hn. split; [apply cleanFunName_qualified, Hf|].
    split; [exact Hf|]. right. exists q. reflexivity.
Qed.

(** The four shapes of a file name and what [cleanFilename] makes of
    each. *)
Lemma cleanFilename_cases file :
  (LastIndexByte file "/" = -1 /\ cleanFilename file = Some file) \/
  (exists base,
     file = String "/" base /\ LastIndexByte base "/" = -1 /\
     LastIndexByte file "/" = 0 /\ cleanFilename file = None) \/
  (exists dir' x base,
     file = dir' +:+ String x (String "/" base) /\
     LastIndexByte dir' "/" = -1 /\ LastIndexByte base "/" = -1 /\
     0 < LastIndexByte file "/" /\ cleanFilename file = Some base) \/
  (exists p dir' x base,
     file = p +:+ String "/" (dir' +:+ String x (String "/" base)) /\
     LastIndexByte dir' "/" = -1 /\ LastIndexByte base "/" = -1 /\
     0 < LastIndexByte file "/" /\
     cleanFilename file = Some (dir' +:+ String x (String "/" base))).
Proof.
  destruct (LastIndexByte_split file "/") as [Hno|(a & base & Hf & Hb & Hsi)].
  { left. split; [exact Hno|apply cleanFilename_plain, Hno]. }
  right. destruct a as [|a0 a1].
  { left. exists base. split; [exact Hf|]. split; [exact Hb|].
    split; [rewrite Hsi; reflexivity|].
    rewrite Hf. apply cleanFilename_root. rewrite LastIndex_byte. exact Hb. }
  right.
  assert (Hpos : 0 < LastIndexByte file "/").
  { rewrite Hsi, len_String. pose proof (len_nonneg a1). lia. }
  destruct (string_snoc (String a0 a1)) as (a' & x & Ha); [discriminate|].
  rewrite Ha in Hf.
  assert (Hf' : file = a' +:+ String x (String "/" base)).
  { rewrite Hf, append_assoc. reflexivity. }
  destruct (LastIndexByte_split a' "/") as [Hno|(p & dir' & Ha' & Hd & _)].
  - left. exists a', x, base. split; [exact Hf'|]. split; [exact Hno|].
    split; [exact Hb|]. split; [exact Hpos|].
    rewrite Hf'. apply cleanFilename_relative; assumption.
  - right. exists p, dir', x, base.
    assert (Hf'' : file = p +:+ String "/" (dir' +:+ String x (String "/" base))).
    { rewrite Hf', Ha', append_assoc. reflexivity. }
    split; [exact Hf''|]. split; [exact Hd|]. split; [exact Hb|].
    split; [exact Hpos|].
    rewrite Hf''. apply cleanFilename_two_segments; assumption.
Qed.

(** X2.  [cleanFilename] panics exactly on the names whose last slash
    is their first byte, that is on the names [/base] of files lying
    directly in the root directory; on every other name it returns. *)
Theorem cleanFilename_panics_iff (file : string) :
  (cleanFilename file = None <-> LastIndexByte file "/" = 0) /\
  (cleanFilename file = None <->
   exists base, file = String "/" base /\ LastIndexByte base "/" = -1).
Proof.
  destruct (cleanFilename_cases file)
    as [[H1 H2]|[(b & Hf & Hb & H1 & H2)|[(d & x & b & _ & _ & _ & H1 & H2)
       |(p & d & x & b & _ & _ & _ & H1 & H2)]]];
    rewrite H2; (split; [split; intros H; try discriminate; try reflexivity;
                          try exact H1; lia|]).
  - split; [discriminate|]. intros (b & -> & Hb).
    pose proof (LastIndexByte_last EmptyString b "/" Hb) as E.
    change (LastIndexByte (String "/" b) "/" = 0) in E. lia.
  - split; [eauto|reflexivity].
  - split; [discriminate|]. intros (b' & -> & Hb').
    pose proof (LastIndexByte_last EmptyString b' "/" Hb') as E.
    change (LastIndexByte (String "/" b') "/" = 0) in E. lia.
  - split; [discriminate|]. intros (b' & -> & Hb').
    pose proof (LastIndexByte_last EmptyString b' "/" Hb') as E.
    change (LastIndexByte (String "/" b') "/" = 0) in E. lia.
Qed.

(** X3.  What [cleanFilename] returns is fixed by the name it was
    given, in one of three ways and in no other: a name without a slash
    is returned as it is; a name [dir/base] whose directory part, its
    last byte set aside, has no slash is reduced to its base name, the
    part after the last slash; and a longer path is reduced to its last
    two parts, [dir/base], the directory part running from the previous
    slash (again found with the last byte of the directory set aside).
    The result is in each case a suffix of the name. *)
Theorem cleanFilename_suffix (file r : string) :
  cleanFilename file = Some r <->
  (LastIndexByte file "/" = -1 /\ r = file) \/
  (exists dir' x base,
     file = dir' +:+ String x (String "/" base) /\
     LastIndexByte dir' "/" = -1 /\ LastIndexByte base "/" = -1 /\
     r = base) \/
  (exists p dir' x base,
     file = p +:+ String "/" (dir' +:+ String x (String "/" base)) /\
     LastIndexByte dir' "/" = -1 /\ LastIndexByte base "/" = -1 /\
     r = dir' +:+ String x (String "/" base)).
Proof.
  split.
  - intros Hr.
    destruct (cleanFilename_cases file)
      as [[H1 H2]|[(b & _ & _ & _ & H2)|[(d & x & b & Hf & Hd & Hb & _ & H2)
         |(p & d & x & b & Hf & Hd & Hb & _ & H2)]]];
      rewrite H2 in Hr; try discriminate; injection Hr as <-.
    + left. split; [exact H1|reflexivity].
    + right. left. exists d, x, b. auto.
    + right. right. exists p, d, x, b. auto.
  - intros [[H ->]|[(d & x & b & -> & Hd & Hb & ->)
                   |(p & d & x & b & -> & Hd & Hb & ->)]].
    + apply cleanFilename_plain, H.
    + apply cleanFilename_relative; assumption.
    + apply cleanFilename_two_segments; assumption.
Qed.

(** ** The syslog sink *)

(** X4.  [sendToSyslog] forwards nothing for a priority that is not one
    of the eight severities (for instance a severity combined with a
    facility): it returns with no event and the state unchanged, and it
    does not even touch the writer, so it cannot fail on a nil one. *)
Theorem sendToSyslog_not_severity (p : Priority) (msg : string)
    (rt : Runtime) (w : World) :
  p < 0 \/ 7 < p ->
  sendToSyslog p msg rt w = Ok tt w [].
Proof.
  intros Hp. unfold sendToSyslog.
  unfold LOG_DEBUG, LOG_INFO, LOG_NOTICE, LOG_WARNING, LOG_ERR, LOG_ALERT,
    LOG_EMERG, LOG_CRIT.
  repeat match goal with
         | |- context [p =? ?k] => destruct (Z.eqb_spec p k) as [->|_]; [lia|]
         end.
  reflexivity.
Qed.

Lemma sendToSyslog_not_severity_witness :
  (Z.lor LOG_LOCAL5 LOG_ERR < 0 \/ 7 < Z.lor LOG_LOCAL5 LOG_ERR) /\
  sendToSyslog (Z.lor LOG_LOCAL5 LOG_ERR) "boom" rt_ex w_ex = Ok tt w_ex [].
Proof.
  assert (H : Z.lor LOG_LOCAL5 LOG_ERR < 0 \/ 7 < Z.lor LOG_LOCAL5 LOG_ERR)
    by (right; reflexivity).
  split; [exact H|].
  exact (sendToSyslog_not_severity _ "boom" rt_ex w_ex H).
Defined.

(** ** The rate limiter over time *)

Lemma rateLimited_at cf addr rt t w :
  rateLimited cf addr (at_time rt t) w =
    if t <=? lastSent w addr + window cf then Ok true w []
    else Ok false (set_mailSent (<[addr := t]> (pkg_mailSent w)) w) [].
Proof. rewrite rateLimited_run. reflexivity. Qed.

Lemma lastSent_recorded addr t w :
  lastSent (set_mailSent (<[addr := t]> (pkg_mailSent w)) w) addr = t.
Proof. unfold lastSent. cbn. rewrite lookup_insert_eq. reflexivity. Qed.

(** X5.  However the check is repeated for one recipient, and whatever
    the times of the checks, the sends it permits are more than one
    window apart: each permitted time is later than the previous
    permitted time (for the first, than the time in the ledger) by more
    than the window in force. *)
Theorem permitted_spaced (cf : Config) (addr : string) (rt : Runtime)
    (times : list Time) (w : World) :
  spaced (window cf) (lastSent w addr) (permitted cf addr rt times w).
Proof.
  revert w. induction times as [|t ts IH]; intros w; [exact I|].
  cbn [permitted]. rewrite rateLimited_at.
  destruct (Z.leb_spec t (lastSent w addr + window cf)) as [Hle|Hgt].
  - apply IH.
  - cbn [spaced]. split; [exact Hgt|].
    specialize (IH (set_mailSent (<[addr := t]> (pkg_mailSent w)) w)).
    rewrite lastSent_recorded in IH. exact IH.
Qed.

(** X6.  The limiter is per recipient: a check for one address leaves
    the ledger entry of every other address as it was, so the verdict
    of a later check for another address is the one it would have had
    without the first check. *)
Theorem rateLimited_other_recipient (ca cb : Config) (a b : string)
    (rt1 rt2 : Runtime) (w : World) :
  a <> b ->
  lastSent (world_of (rateLimited ca a rt1 w)) b = lastSent w b /\
  verdict (rateLimited cb b rt2 (world_of (rateLimited ca a rt1 w)))
  = verdict (rateLimited cb b rt2 w).
Proof.
  intros Hab.
  assert (Hl : lastSent (world_of (rateLimited ca a rt1 w)) b = lastSent w b).
  { rewrite rateLimited_run.
    destruct (Now rt1 <=? lastSent w a + window ca); [reflexivity|].
    unfold lastSent. cbn. rewrite lookup_insert_ne by exact Hab. reflexivity. }
  split; [exact Hl|].
  rewrite (rateLimited_run cb b rt2 (world_of (rateLimited ca a rt1 w))), Hl.
  rewrite (rateLimited_run cb b rt2 w).
  destruct (Now rt2 <=? lastSent w b + window cb); reflexivity.
Qed.

Lemma rateLimited_other_recipient_witness :
  "ops@company"%string <> "dev@company"%string /\
  verdict (rateLimited cfg_ex "dev@company" rt_ex
             (world_of (rateLimited cfg_ex "ops@company" rt_ex w_ex)))
  = Some false.
Proof.
  assert (H : "ops@company"%string <> "dev@company"%string) by discriminate.
  split; [exact H|].
  rewrite (proj2 (rateLimited_other_recipient cfg_ex cfg_ex "ops@company"
                    "dev@company" rt_ex rt_ex w_ex H)).
  reflexivity.
Defined.

(** ** The configuration store *)

(** X7.  With a debug map in place, [SetDebugFlag(f, v)] returns, and
    afterwards the map gives [v] for [f] and what it gave before for
    every other key; the other fields of the configuration, the ledger,
    the writer and the handles are untouched. *)
Theorem SetDebugFlag_lookup (f : string) (v : bool) (rt : Runtime)
    (w : World) (c : Config) (m : gmap string bool) :
  pkg_config w = Some c ->
  Debug c = Some m ->
  exists c',
    SetDebugFlag f v rt w = Ok tt (set_config (Some c') w) [] /\
    mapGet (Debug c') f = v /\
    (forall k, k <> f -> mapGet (Debug c') k = mapGet (Debug c) k) /\
    (MailTo c', MailFrom c', MailRateLimit c', Sendmail c', Facility c', ProgName c')
    = (MailTo c, MailFrom c, MailRateLimit c, Sendmail c, Facility c, ProgName c).
Proof.
  intros Hc Hm. exists (set_Debug (Some (<[f := v]> m)) c).
  split; [|split; [|split]].
  - unfold SetDebugFlag. rewrite bind_get_world, Hc.
    rewrite (bind_Ok_nil _ _ rt w c w) by reflexivity.
    rewrite Hm. reflexivity.
  - cbn [set_Debug Debug mapGet]. rewrite lookup_insert_eq. reflexivity.
  - intros k Hk. rewrite Hm. cbn [set_Debug Debug mapGet].
    rewrite lookup_insert_ne by congruence. reflexivity.
  - reflexivity.
Qed.

Lemma SetDebugFlag_lookup_witness :
  pkg_config w_cfg = Some cfg_ex /\
  Debug cfg_ex = Some {[ "encabulator"%string := true ]} /\
  exists c',
    SetDebugFlag "api" true rt_ex w_cfg = Ok tt (set_config (Some c') w_cfg) [] /\
    mapGet (Debug c') "api" = true /\
    mapGet (Debug c') "encabulator" = true.
Proof.
  split; [reflexivity|]. split; [reflexivity|].
  destruct (SetDebugFlag_lookup "api" true rt_ex w_cfg cfg_ex
              {[ "encabulator"%string := true ]} eq_refl eq_refl)
    as (c' & H1 & H2 & H3 & _).
  exists c'. split; [exact H1|]. split; [exact H2|].
  rewrite (H3 "encabulator"%string); [reflexivity|discriminate].
Defined.

Lemma SetConfig_run cf rt w :
  SetConfig cf rt w =
    Ok tt (set_slog
             match pkg_slog w with
             | Some s => Some s
             | None =>
                 match prioName !! ToLower rt (Facility cf) with
                 | Some p => syslog_New rt p (pkg_progname w)
                 | None => None
                 end
             end (set_config (Some cf) w)) [].
Proof.
  unfold SetConfig, openSyslog.
  rewrite bind_get_world.
  rewrite (bind_Ok_nil _ _ rt w tt (set_config (Some cf) w)) by reflexivity.
  destruct w as [h pn c ms dd sl hp]; cbn [pkg_slog pkg_progname set_config set_slog].
  destruct sl as [s|].
  - rewrite bool_decide_eq_false_2 by discriminate. reflexivity.
  - rewrite bool_decide_eq_true_2 by reflexivity. cbn [when].
    rewrite bind_runtime.
    destruct (prioName !! ToLower rt (Facility cf)); reflexivity.
Qed.

(** X8.  The facility is fixed by the first [SetConfig] that opens a
    writer: a second [SetConfig] installs its configuration but keeps
    that writer, whatever facility the second configuration names; the
    ledger and the handles go through both calls unchanged. *)
Theorem SetConfig_twice (c1 c2 : Config) (rt1 rt2 : Runtime) (w : World)
    (p : Priority) (wr : Writer) :
  pkg_slog w = None ->
  prioName !! ToLower rt1 (Facility c1) = Some p ->
  syslog_New rt1 p (pkg_progname w) = Some wr ->
  exists w1,
    SetConfig c1 rt1 w = Ok tt w1 [] /\
    SetConfig c2 rt2 w1 = Ok tt (set_slog (Some wr) (set_config (Some c2) w)) [].
Proof.
  intros Hs Hp Hn. eexists. split; [apply SetConfig_run|].
  rewrite SetConfig_run, Hs, Hp, Hn. reflexivity.
Qed.

Lemma SetConfig_twice_witness :
  pkg_slog w_ex = None /\
  prioName !! ToLower rt_ex (Facility cfg_ex) = Some LOG_LOCAL5 /\
  syslog_New rt_ex LOG_LOCAL5 (pkg_progname w_ex) = Some (mkWriter LOG_LOCAL5 "prog") /\
  exists w1,
    SetConfig cfg_ex rt_ex w_ex = Ok tt w1 [] /\
    SetConfig Config_zero rt_ex w1
    = Ok tt (set_slog (Some (mkWriter LOG_LOCAL5 "prog"))
               (set_config (Some Config_zero) w_ex)) [].
Proof.
  split; [reflexivity|]. split; [reflexivity|]. split; [reflexivity|].
  exact (SetConfig_twice cfg_ex Config_zero rt_ex rt_ex w_ex LOG_LOCAL5
           (mkWriter LOG_LOCAL5 "prog") eq_refl eq_refl eq_refl).
Defined.

(** ** How a dispatch can end *)

Lemma mails_app tr1 tr2 : mails (tr1 ++ tr2) = (mails tr1 + mails tr2)%nat.
Proof.
  induction tr1 as [|e tr1 IH]; [reflexivity|].
  destruct e; cbn [app mails]; rewrite IH; reflexivity.
Qed.

Lemma mails_stderr cf dv out : mails (stderr_events cf dv out) = 0%nat.
Proof. unfold stderr_events. destruct (_ && _); reflexivity. Qed.

Lemma mails_syslog cf w out : mails (syslog_events cf w out) = 0%nat.
Proof.
  unfold syslog_events. destruct (pkg_slog w); [|reflexivity].
  destruct (is_severity _); reflexivity.
Qed.

(** On a handle that is nil or dangling, a dispatch that is to write to
    stderr panics before it has written anything. *)
Lemma diag_dead cf d format args rt w :
  heap w !! d = None ->
  toStderr cf = true ->
  exists msg, diag cf d format args rt w = Abort (Panic msg) w [].
Proof.
  intros Hd Ht. unfold diag. rewrite bind_runtime.
  destruct (withInfo cf).
  { eexists. apply bind_Abort, bind_Abort, load_dead, Hd. }
  rewrite (bind_Ok_nil _ _ rt w EmptyString w) by reflexivity.
  rewrite index_last.
  destruct (String.eqb_spec format "") as [->|Hne].
  { eexists. apply bind_Abort. reflexivity. }
  destruct (last_byte_nonempty format Hne) as [c Hc]. rewrite Hc.
  rewrite (bind_Ok_nil _ _ rt w c w) by reflexivity.
  rewrite Ht.
  destruct (Ascii.eqb c NL).
  - rewrite (slice_drop_last format Hne).
    rewrite (bind_Ok_nil _ _ rt w (drop_last format) w) by reflexivity.
    eexists. apply bind_Abort, bind_Abort, load_dead, Hd.
  - rewrite (bind_Ok_nil _ _ rt w format w) by reflexivity.
    eexists. apply bind_Abort, bind_Abort, load_dead, Hd.
Qed.

(** The three ways a dispatch on a live handle ends: a panic while the
    prefix is computed, a panic on the empty format, or a normal return
    after the fan-out, with at most the ledger entry of the effective
    recipient changed. *)
Lemma diag_live_cases cf d dv format args rt w :
  heap w !! d = Some dv ->
  (prefix_of cf rt dv = None /\
   diag cf d format args rt w = Abort (Panic "slice bounds out of range") w []) \/
  (format = EmptyString /\
   diag cf d format args rt w = Abort (Panic "index out of range") w []) \/
  (exists pre w',
     prefix_of cf rt dv = Some pre /\ format <> EmptyString /\
     diag cf d format args rt w
     = Ok tt w' (events_of cf rt w dv (pre +:+ Sprintf rt (chomp format) args)) /\
     ((w' = w /\
       mails (events_of cf rt w dv (pre +:+ Sprintf rt (chomp format) args)) = 0%nat) \/
      exists c,
        toEmail cf = true /\ pkg_config w = Some c /\
        mails (events_of cf rt w dv (pre +:+ Sprintf rt (chomp format) args)) = 1%nat /\
        w' = set_mailSent (<[effective_mailTo c dv := Now rt]> (pkg_mailSent w)) w)).
Proof.
  intros Hd. rewrite (diag_run rt w d dv Hd).
  destruct (prefix_of cf rt dv) as [pre|]; [|left; split; reflexivity].
  right. destruct (String.eqb_spec format "") as [->|Hne].
  { left. split; reflexivity. }
  right. exists pre.
  rewrite (fanout_run rt w d dv Hd), (sendEmail_run rt w d dv Hd).
  unfold events_of, mail_events.
  set (out := pre +:+ Sprintf rt (chomp format) args).
  assert (H0 : mails (stderr_events cf dv out ++ syslog_events cf w out ++ []) = 0%nat)
    by (rewrite !mails_app, mails_stderr, mails_syslog; reflexivity).
  destruct (toEmail cf).
  2:{ exists w. rewrite app_nil_r in *. repeat split; auto. }
  destruct (pkg_config w) as [c|]; [|exists w; repeat split; auto].
  cbv zeta. destruct (_ || _); [exists w; repeat split; auto|].
  destruct (_ <=? _); [exists w; repeat split; auto|].
  eexists. split; [reflexivity|]. split; [exact Hne|]. split; [reflexivity|].
  right. exists c. split; [reflexivity|]. split; [reflexivity|].
  split; [|reflexivity].
  rewrite !mails_app, mails_stderr, mails_syslog. reflexivity.
Qed.

(** A Debug call is suppressed, or stops on a nil handle or
    configuration, or is a dispatch with the Debug bundle. *)
Lemma Diag_Debug_cases d format args rt w :
  Diag_Debug d format args rt w = Ok tt w [] \/
  Diag_Debug d format args rt w = Abort (Panic nil_deref) w [] \/
  Diag_Debug d format args rt w = diag (policy KDebug) d format args rt w.
Proof.
  unfold Diag_Debug.
  rewrite (bind_Ok_nil getConfig _ rt w (pkg_config w) w) by reflexivity.
  destruct (heap w !! d) as [dv|] eqn:Hd.
  2:{ right. left. apply bind_Abort, load_dead, Hd. }
  rewrite (bind_Ok_nil _ _ rt w dv w) by (apply load_live, Hd).
  destruct (debugAll dv); cbn [negb].
  { right. right. rewrite (bind_Ok_nil _ _ rt w false w) by reflexivity.
    reflexivity. }
  destruct (pkg_config w) as [c|].
  2:{ right. left. apply bind_Abort. reflexivity. }
  rewrite (bind_Ok_nil _ _ rt w
             (negb (mapGet (Debug c) (section dv)) && negb (mapGet (Debug c) "all")) w)
    by reflexivity.
  destruct (negb (mapGet (Debug c) (section dv)) && negb (mapGet (Debug c) "all")).
  - left. reflexivity.
  - right. right. reflexivity.
Qed.

(** Every levelled call is suppressed (Debug only), or stops on a nil
    handle or configuration (Debug only), or is a dispatch with the
    bundle of its kind, followed by the exit for Fatal. *)
Lemma call_cases k d format args rt w :
  call k d format args rt w = Ok tt w [] \/
  call k d format args rt w = Abort (Panic nil_deref) w [] \/
  call k d format args rt w
  = match diag (policy k) d format args rt w with
    | Ok _ w' tr => if terminates k then Abort (Exit (-1)) w' tr else Ok tt w' tr
    | Abort r w' tr => Abort r w' tr
    end.
Proof.
  destruct k; cbn [call terminates].
  - right. right. unfold Diag_Verbose. cbn [policy].
    destruct (diag _ d format args rt w) as [[] ? ?|? ? ?]; reflexivity.
  - destruct (Diag_Debug_cases d format args rt w) as [H|[H|H]]; auto.
    right. right. rewrite H.
    destruct (diag _ d format args rt w) as [[] ? ?|? ? ?]; reflexivity.
  - right. right. unfold Diag_Problem. cbn [policy].
    destruct (diag _ d format args rt w) as [[] ? ?|? ? ?]; reflexivity.
  - right. right. unfold Diag_Bug. cbn [policy].
    destruct (diag _ d format args rt w) as [[] ? ?|? ? ?]; reflexivity.
  - right. right. unfold Diag_Fatal, bind. cbn [policy].
    destruct (diag _ d format args rt w) as [[] ? ?|? ? ?];
      [cbn [os_Exit]; rewrite app_nil_r|]; reflexivity.
Qed.

Lemma policy_toStderr k : toStderr (policy k) = true.
Proof. destruct k; reflexivity. Qed.

(** X9.  A levelled call that panics has done nothing before: whatever
    the kind, the handle (live, nil or dangling), the format and the
    state, when the call ends in a panic no sink has been written and
    the package state is the one before the call. *)
Theorem panic_before_any_effect (k : kind) (d : loc) (format : string)
    (args : list value) (rt : Runtime) (w w' : World) (msg : string)
    (tr : list event) :
  call k d format args rt w = Abort (Panic msg) w' tr ->
  w' = w /\ tr = [].
Proof.
  intros H.
  destruct (call_cases k d format args rt w) as [E|[E|E]]; rewrite E in H.
  - discriminate.
  - injection H as _ <- <-. auto.
  - destruct (heap w !! d) as [dv|] eqn:Hd.
    + destruct (diag_live_cases (policy k) d dv format args rt w Hd)
        as [[_ D]|[[_ D]|(pre & w1 & _ & _ & D & _)]]; rewrite D in H.
      * injection H as _ <- <-. auto.
      * injection H as _ <- <-. auto.
      * destruct (terminates k); discriminate.
    + destruct (diag_dead (policy k) d format args rt w Hd (policy_toStderr k))
        as [m D].
      rewrite D in H. injection H as _ <- <-. auto.
Qed.

Lemma panic_before_any_effect_witness :
  call KBug 0%nat "" [] rt_ex w_cfg = Abort (Panic "index out of range") w_cfg [] /\
  w_cfg = w_cfg /\ @nil event = [].
Proof.
  assert (H : call KBug 0%nat "" [] rt_ex w_cfg
              = Abort (Panic "index out of range") w_cfg []) by reflexivity.
  split; [exact H|].
  exact (panic_before_any_effect KBug 0%nat "" [] rt_ex w_cfg w_cfg _ [] H).
Defined.

Lemma cleanFunName_some n : exists r, cleanFunName n = Some r.
Proof.
  destruct (LastIndexByte_split n ".") as [Hno|(q & f & Hn & Hf & _)].
  - exists n. apply cleanFunName_plain, Hno.
  - exists f. rewrite Hn. apply cleanFunName_qualified, Hf.
Qed.

Lemma cleanFilename_none file :
  cleanFilename file = None <-> LastIndexByte file "/" = 0.
Proof.
  destruct (cleanFilename_cases file)
    as [[H1 H2]|[(b & _ & _ & H1 & H2)|[(d & x & b & _ & _ & _ & H1 & H2)
       |(p & d & x & b & _ & _ & _ & H1 & H2)]]];
    rewrite H2; split; intros H; try discriminate; try reflexivity;
    try exact H1; lia.
Qed.

(** X10.  On a live handle a dispatch fails in exactly two situations:
    the format string is empty, or call-site info is wanted and the
    caller is resolved to a file whose last slash is its first byte.
    In every other situation it returns normally. *)
Theorem diag_fails_iff (cf : logconf) (d : loc) (dv : Diag) (format : string)
    (args : list value) (rt : Runtime) (w : World) :
  heap w !! d = Some dv ->
  (outcome (diag cf d format args rt w) <> None <->
   format = EmptyString \/
   (withInfo cf = true /\
    exists fr, Caller rt (uplevel dv) = Some fr /\ LastIndexByte (file fr) "/" = 0)).
Proof.
  intros Hd.
  assert (Hpre : prefix_of cf rt dv = None <->
                 withInfo cf = true /\
                 exists fr, Caller rt (uplevel dv) = Some fr
                            /\ LastIndexByte (file fr) "/" = 0).
  { unfold prefix_of, callsite_prefix.
    destruct (withInfo cf); [|split; [discriminate|intros [? _]; discriminate]].
    destruct (Caller rt (uplevel dv)) as [fr|].
    2:{ split; [discriminate|intros (_ & fr & ? & _); discriminate]. }
    destruct (cleanFilename (file fr)) as [fs|] eqn:Hcf.
    - assert (Hn : LastIndexByte (file fr) "/" <> 0).
      { intros H0. apply cleanFilename_none in H0. congruence. }
      destruct (cleanFunName_some (match fn fr with Some n => n | None => "" end))
        as [f Hf].
      destruct (fn fr) as [name|].
      + rewrite Hf. split; [discriminate|].
        intros (_ & fr' & Hfr & H0). injection Hfr as <-. contradiction.
      + split; [discriminate|].
        intros (_ & fr' & Hfr & H0). injection Hfr as <-. contradiction.
    - split; [|reflexivity]. intros _. split; [reflexivity|].
      exists fr. split; [reflexivity|]. apply cleanFilename_none, Hcf. }
  destruct (diag_live_cases cf d dv format args rt w Hd)
    as [[Hp D]|[[Hf D]|(pre & w1 & Hp & Hne & D & _)]]; rewrite D; cbn [outcome].
  - split; [intros _; right; apply Hpre, Hp|discriminate].
  - split; [intros _; left; exact Hf|discriminate].
  - split; [congruence|].
    intros [Hf|Hbad]; [contradiction|].
    apply Hpre in Hbad. congruence.
Qed.

Lemma diag_fails_iff_witness :
  heap w_ex !! 0%nat = Some (mkDiag "default" 3 "" "" "" false true) /\
  outcome (diag (policy KProblem) 0%nat "disk full" [] rt_root w_ex) <> None.
Proof.
  split; [reflexivity|].
  apply (diag_fails_iff (policy KProblem) 0%nat
           (mkDiag "default" 3 "" "" "" false true) "disk full" [] rt_root w_ex
           eq_refl).
  right. split; [reflexivity|].
  exists (mkFrame "/main.go" 7 (Some "main.main"%string)).
  split; reflexivity.
Defined.

(** X11.  A dispatch on a live handle changes nothing of the package
    state but, at most, one entry of the ledger.  Either no mail
    transport is started and the state after the call is the state
    before; or (only for a bundle with email, with a configuration in
    place) exactly one transport is started and the state is the one
    before with the current time stored for the effective recipient.
    Handles, configuration and writer are never touched. *)
Theorem diag_frame (cf : logconf) (d : loc) (dv : Diag) (format : string)
    (args : list value) (rt : Runtime) (w : World) :
  heap w !! d = Some dv ->
  let r := diag cf d format args rt w in
  (world_of r = w /\ mails (trace_of r) = 0%nat) \/
  (exists c,
     toEmail cf = true /\ pkg_config w = Some c /\
     mails (trace_of r) = 1%nat /\
     world_of r
     = set_mailSent (<[effective_mailTo c dv := Now rt]> (pkg_mailSent w)) w).
Proof.
  intros Hd r. subst r.
  destruct (diag_live_cases cf d dv format args rt w Hd)
    as [[_ D]|[[_ D]|(pre & w1 & _ & _ & D & [[-> Hm]|(c & Ht & Hc & Hm & ->)])]];
    rewrite D; cbn [world_of trace_of].
  - left. split; reflexivity.
  - left. split; reflexivity.
  - left. split; [reflexivity|exact Hm].
  - right. exists c. repeat split; assumption.
Qed.

Lemma diag_frame_witness :
  heap w_cfg !! 0%nat = Some (mkDiag "default" 3 "" "" "" false true) /\
  world_of (diag (policy KBug) 0%nat "boom" [] rt_ex w_cfg)
  = set_mailSent (<["devteam@company"%string := t_ex]> (pkg_mailSent w_cfg)) w_cfg.
Proof.
  split; [reflexivity|].
  destruct (diag_frame (policy KBug) 0%nat (mkDiag "default" 3 "" "" "" false true)
              "boom" [] rt_ex w_cfg eq_refl) as [[_ H]|(c & _ & Hc & _ & H)].
  - vm_compute in H. discriminate.
  - injection Hc as <-. exact H.
Defined.

(** A dispatch without email, on any handle, leaves the state as it
    was and starts no mail transport. *)
Lemma diag_no_email cf d format args rt w :
  toEmail cf = false -> toStderr cf = true ->
  world_of (diag cf d format args rt w) = w /\
  mails (trace_of (diag cf d format args rt w)) = 0%nat.
Proof.
  intros He Ht. destruct (heap w !! d) as [dv|] eqn:Hd.
  - destruct (diag_live_cases cf d dv format args rt w Hd)
      as [[_ D]|[[_ D]|(pre & w1 & _ & _ & D & [[-> Hm]|(c & Hc & _)])]];
      try rewrite D; cbn [world_of trace_of]; auto.
    congruence.
  - destruct (diag_dead cf d format args rt w Hd Ht) as [m D].
    rewrite D. auto.
Qed.

(** X12.  Verbose and Debug calls never start the mail transport and
    never change the package state (ledger included), on any handle,
    for any format, whether they return or panic. *)
Theorem verbose_debug_leave_state (d : loc) (format : string)
    (args : list value) (rt : Runtime) (w : World) :
  (world_of (Diag_Verbose d format args rt w) = w /\
   mails (trace_of (Diag_Verbose d format args rt w)) = 0%nat) /\
  (world_of (Diag_Debug d format args rt w) = w /\
   mails (trace_of (Diag_Debug d format args rt w)) = 0%nat).
Proof.
  split.
  - apply (diag_no_email (policy KVerbose)); reflexivity.
  - destruct (Diag_Debug_cases d format args rt w) as [H|[H|H]]; rewrite H.
    + auto.
    + auto.
    + apply (diag_no_email (policy KDebug)); reflexivity.
Qed.

Lemma stderr_in_events cf rt w dv out o :
  EvStderr o ∈ events_of cf rt w dv out -> useStderr dv = true.
Proof.
  unfold events_of, stderr_events, syslog_events, mail_events. intros H.
  apply elem_of_app in H as [H|H].
  - destruct (toStderr cf), (useStderr dv); cbn in H; try reflexivity;
      apply not_elem_of_nil in H; contradiction.
  - exfalso. apply elem_of_app in H as [H|H].
    + destruct (pkg_slog w); [|apply not_elem_of_nil in H; contradiction].
      destruct (is_severity _); [|apply not_elem_of_nil in H; contradiction].
      apply list_elem_of_singleton in H. discriminate.
    + destruct (toEmail cf); [|apply not_elem_of_nil in H; contradiction].
      destruct (pkg_config w); [|apply not_elem_of_nil in H; contradiction].
      cbv zeta in H.
      destruct (_ || _); [apply not_elem_of_nil in H; contradiction|].
      destruct (_ <=? _); [apply not_elem_of_nil in H; contradiction|].
      apply list_elem_of_singleton in H. discriminate.
Qed.

(** X13.  After [SetStderr(false)] on a handle, no levelled call on
    that handle writes to stderr, whatever its kind. *)
Theorem stderr_disabled (k : kind) (d : loc) (dv : Diag) (format : string)
    (args : list value) (rt : Runtime) (w : World) (o : string) :
  heap w !! d = Some dv ->
  EvStderr o ∉ trace_of ((_ <~ Diag_SetStderr d false; call k d format args) rt w).
Proof.
  intros Hd.
  set (dv1 := set_useStderr false dv).
  set (w1 := set_heap (<[d := dv1]> (heap w)) w).
  assert (Hs : Diag_SetStderr d false rt w = Ok tt w1 []).
  { unfold Diag_SetStderr.
    rewrite (bind_Ok_nil _ _ rt w dv w (load_live _ _ _ _ Hd)).
    apply (store_live d dv _ rt w Hd). }
  assert (Hd1 : heap w1 !! d = Some dv1) by apply lookup_insert_eq.
  rewrite (bind_Ok_nil _ (fun _ => call k d format args) rt w tt w1 Hs).
  intros Hin.
  destruct (call_cases k d format args rt w1) as [E|[E|E]]; rewrite E in Hin.
  - apply not_elem_of_nil in Hin. exact Hin.
  - apply not_elem_of_nil in Hin. exact Hin.
  - destruct (diag_live_cases (policy k) d dv1 format args rt w1 Hd1)
      as [[_ D]|[[_ D]|(pre & w2 & _ & _ & D & _)]]; rewrite D in Hin.
    + apply not_elem_of_nil in Hin. exact Hin.
    + apply not_elem_of_nil in Hin. exact Hin.
    + assert (Hin' : EvStderr o ∈ events_of (policy k) rt w1 dv1
                       (pre +:+ Sprintf rt (chomp format) args))
        by (destruct (terminates k); exact Hin).
      apply stderr_in_events in Hin'. discriminate.
Qed.

Lemma stderr_disabled_witness :
  heap w_cfg !! 0%nat = Some (mkDiag "default" 3 "" "" "" false true) /\
  EvStderr "pkg/file.go:42 Handler(): boom"
    ∉ trace_of ((_ <~ Diag_SetStderr 0%nat false; call KBug 0%nat "boom" []) rt_ex w_cfg).
Proof.
  split; [reflexivity|].
  exact (stderr_disabled KBug 0%nat (mkDiag "default" 3 "" "" "" false true)
           "boom" [] rt_ex w_cfg _ eq_refl).
Defined.

(** ** The mail that goes out, and the mail that does not *)

(** X14.  When a dispatch with email finds both effective addresses
    non-empty and the recipient not rate limited, it returns after
    starting exactly one mail transport: the configured command (or
    [sendmail]) with arguments [-t -f <from>], fed the headers [To],
    [From] and [Subject: <program> daemon error], a blank line, the
    program name, host and process id, the formatted text under
    [error:], and the stack dump exactly when the bundle asks for it;
    and it records the current time for the recipient. *)
Theorem mail_goes_out (cf : logconf) (d : loc) (dv : Diag) (c : Config)
    (format pre : string) (args : list value) (rt : Runtime) (w : World) :
  heap w !! d = Some dv ->
  pkg_config w = Some c ->
  toEmail cf = true ->
  prefix_of cf rt dv = Some pre ->
  format <> EmptyString ->
  effective_mailTo c dv <> EmptyString ->
  effective_mailFrom c dv <> EmptyString ->
  lastSent w (effective_mailTo c dv) + window c < Now rt ->
  let out := pre +:+ Sprintf rt (chomp format) args in
  let to := effective_mailTo c dv in
  let from := effective_mailFrom c dv in
  let prog := effective_progname c (pkg_progname w) dv in
  diag cf d format args rt w =
    Ok tt (set_mailSent (<[to := Now rt]> (pkg_mailSent w)) w)
      (stderr_events cf dv out ++ syslog_events cf w out ++
       [EvSendmail (if String.eqb (Sendmail c) "" then "sendmail" else Sendmail c)
          ["-t"; "-f"; from]%string
          (lit "To: " +:+ to +:+ lit "\nFrom: " +:+ from
           +:+ lit "\nSubject: " +:+ prog +:+ lit " daemon error\n\n"
           +:+ lit "an error was detected in " +:+ prog
           +:+ lit "\n\nhost:   " +:+ pkg_hostname w
           +:+ lit "\npid:    " +:+ Itoa (Getpid rt)
           +:+ lit "\n\n" +:+ lit "error:\n" +:+ out +:+ lit "\n"
           +:+ (if withTrace cf
                then lit "\n\n" +:+ Stack rt stackMax +:+ lit "\n"
                else ""))]).
Proof.
  intros Hd Hc He Hp Hne Hto Hfrom Hlim out to from prog.
  rewrite (diag_run rt w d dv Hd), Hp.
  destruct (String.eqb_spec format "") as [->|_]; [congruence|].
  rewrite (fanout_run rt w d dv Hd), He, (sendEmail_run rt w d dv Hd), Hc.
  cbv zeta.
  change (mailTo (effective c (pkg_progname w) dv)) with to.
  change (mailFrom (effective c (pkg_progname w) dv)) with from.
  destruct (String.eqb_spec to ""); [contradiction|].
  destruct (String.eqb_spec from ""); [contradiction|]. cbn [orb].
  destruct (Z.leb_spec (Now rt) (lastSent w to + window c)); [subst to; lia|].
  unfold mail_event. rewrite mail_message_text. reflexivity.
Qed.

Lemma mail_goes_out_witness :
  heap w_cfg !! 0%nat = Some (mkDiag "default" 3 "" "" "" false true) /\
  pkg_config w_cfg = Some cfg_ex /\
  lastSent w_cfg "devteam@company" + window cfg_ex < Now rt_ex /\
  mails (trace_of (diag (policy KProblem) 0%nat "boom" [] rt_ex w_cfg)) = 1%nat.
Proof.
  split; [reflexivity|]. split; [reflexivity|]. split; [reflexivity|].
  rewrite (mail_goes_out (policy KProblem) 0%nat
             (mkDiag "default" 3 "" "" "" false true) cfg_ex "boom"
             "pkg/file.go:42 Handler(): " [] rt_ex w_cfg
             eq_refl eq_refl eq_refl eq_refl); try discriminate; reflexivity.
Defined.

(** X15.  Rate limiting suppresses the mail only: when the effective
    recipient is rate limited, a dispatch with email still returns
    normally and hands its text to stderr and syslog as usual; no mail
    transport is started and the state, ledger included, is unchanged. *)
Theorem rate_limited_still_logs (cf : logconf) (d : loc) (dv : Diag) (c : Config)
    (format pre : string) (args : list value) (rt : Runtime) (w : World) :
  heap w !! d = Some dv ->
  pkg_config w = Some c ->
  prefix_of cf rt dv = Some pre ->
  format <> EmptyString ->
  Now rt <= lastSent w (effective_mailTo c dv) + window c ->
  let out := pre +:+ Sprintf rt (chomp format) args in
  diag cf d format args rt w
  = Ok tt w (stderr_events cf dv out ++ syslog_events cf w out).
Proof.
  intros Hd Hc Hp Hne Hlim out.
  rewrite (diag_run rt w d dv Hd), Hp.
  destruct (String.eqb_spec format "") as [->|_]; [congruence|].
  rewrite (fanout_run rt w d dv Hd), (sendEmail_run rt w d dv Hd), Hc.
  cbv zeta.
  change (mailTo (effective c (pkg_progname w) dv)) with (effective_mailTo c dv).
  destruct (Z.leb_spec (Now rt) (lastSent w (effective_mailTo c dv) + window c));
    [|lia].
  destruct (toEmail cf); [|reflexivity].
  destruct (_ || _); rewrite app_nil_r; reflexivity.
Qed.

Lemma rate_limited_still_logs_witness :
  let w1 := world_of (diag (policy KBug) 0%nat "boom" [] rt_ex w_cfg) in
  heap w1 !! 0%nat = Some (mkDiag "default" 3 "" "" "" false true) /\
  pkg_config w1 = Some cfg_ex /\
  Now (at_time rt_ex (t_ex + Second))
  <= lastSent w1 (effective_mailTo cfg_ex (mkDiag "default" 3 "" "" "" false true))
     + window cfg_ex /\
  diag (policy KBug) 0%nat "again" [] (at_time rt_ex (t_ex + Second)) w1
  = Ok tt w1 [EvStderr "pkg/file.go:42 Handler(): again"].
Proof.
  intros w1.
  assert (H1 : heap w1 !! 0%nat = Some (mkDiag "default" 3 "" "" "" false true))
    by reflexivity.
  assert (H2 : pkg_config w1 = Some cfg_ex) by reflexivity.
  assert (H3 : Now (at_time rt_ex (t_ex + Second))
               <= lastSent w1 (effective_mailTo cfg_ex
                                 (mkDiag "default" 3 "" "" "" false true))
                  + window cfg_ex)
    by (vm_compute; discriminate).
  split; [exact H1|]. split; [exact H2|]. split; [exact H3|].
  rewrite (rate_limited_still_logs (policy KBug) 0%nat _ cfg_ex "again"
             "pkg/file.go:42 Handler(): " [] (at_time rt_ex (t_ex + Second)) w1
             H1 H2 eq_refl); [reflexivity|discriminate|exact H3].
Defined.

(** ** The default handle and new loggers *)

Lemma call_ungated k d format args rt w :
  gated k = false ->
  call k d format args rt w
  = match diag (policy k) d format args rt w with
    | Ok _ w' tr => if terminates k then Abort (Exit (-1)) w' tr else Ok tt w' tr
    | Abort r w' tr => Abort r w' tr
    end.
Proof.
  intros Hg. destruct k; try discriminate; cbn [call terminates policy].
  - unfold Diag_Verbose.
    destruct (diag _ d format args rt w) as [[] ? ?|? ? ?]; reflexivity.
  - unfold Diag_Problem.
    destruct (diag _ d format args rt w) as [[] ? ?|? ? ?]; reflexivity.
  - unfold Diag_Bug.
    destruct (diag _ d format args rt w) as [[] ? ?|? ? ?]; reflexivity.
  - unfold Diag_Fatal, bind.
    destruct (diag _ d format args rt w) as [[] ? ?|? ? ?];
      [cbn [os_Exit]; rewrite app_nil_r|]; reflexivity.
Qed.

(** X16.  The flag [-D] does not reach any package-level call: it sets
    [debugAll] of the default handle, which only [Debug] reads, and the
    package-level calls (Verbose, Problem, Bug, Fatal) write the same
    events and end in the same way whatever the value of the flag. *)
Theorem flag_D_inert (k : kind) (x : bool) (format : string)
    (args : list value) (rt rt0 : Runtime) (w : World) (dv : Diag) :
  gated k = false ->
  heap w !! pkg_defaultDiag w = Some dv ->
  let w1 := world_of (flag_D x rt0 w) in
  flag_D x rt0 w = Ok tt w1 [] /\
  trace_of (call k (pkg_defaultDiag w1) format args rt w1)
  = trace_of (call k (pkg_defaultDiag w) format args rt w) /\
  outcome (call k (pkg_defaultDiag w1) format args rt w1)
  = outcome (call k (pkg_defaultDiag w) format args rt w).
Proof.
  intros Hg Hd.
  set (d := pkg_defaultDiag w) in *.
  set (dv1 := set_debugAll x dv).
  assert (Hf : flag_D x rt0 w = Ok tt (set_heap (<[d := dv1]> (heap w)) w) []).
  { unfold flag_D. rewrite bind_get_world. fold d.
    rewrite (bind_Ok_nil _ _ rt0 w dv w (load_live _ _ _ _ Hd)).
    apply (store_live d dv _ rt0 w Hd). }
  rewrite Hf. cbn [world_of]. cbv zeta.
  set (w1 := set_heap (<[d := dv1]> (heap w)) w).
  split; [reflexivity|].
  change (pkg_defaultDiag w1) with d.
  assert (Hd1 : heap w1 !! d = Some dv1) by apply lookup_insert_eq.
  assert (Hpre : prefix_of (policy k) rt dv1 = prefix_of (policy k) rt dv)
    by reflexivity.
  assert (Hev : forall out, events_of (policy k) rt w1 dv1 out
                            = events_of (policy k) rt w dv out).
  { intros out. unfold events_of, mail_events.
    change (pkg_config w1) with (pkg_config w).
    destruct (toEmail (policy k)); [|reflexivity].
    destruct (pkg_config w) as [c|]; reflexivity. }
  rewrite !(call_ungated k) by exact Hg.
  destruct (prefix_of (policy k) rt dv) as [pre|] eqn:P.
  2:{ rewrite (diag_run rt w1 d dv1 Hd1), (diag_run rt w d dv Hd), Hpre, P.
      split; reflexivity. }
  destruct (String.eqb_spec format "") as [->|Hne].
  { rewrite (diag_run rt w1 d dv1 Hd1), (diag_run rt w d dv Hd), Hpre, P.
    split; reflexivity. }
  destruct (diag_ok rt w1 d dv1 Hd1 (policy k) format args pre Hpre Hne)
    as [w2 D1].
  destruct (diag_ok rt w d dv Hd (policy k) format args pre P Hne) as [w3 D].
  rewrite D1, D. unfold events_of in Hev. rewrite Hev.
  destruct (terminates k); split; reflexivity.
Qed.

Lemma flag_D_inert_witness :
  gated KProblem = false /\
  heap w_cfg !! pkg_defaultDiag w_cfg = Some (mkDiag "default" 3 "" "" "" false true) /\
  trace_of (call KProblem 0%nat "boom" [] rt_ex (world_of (flag_D true rt_ex w_cfg)))
  = trace_of (call KProblem 0%nat "boom" [] rt_ex w_cfg).
Proof.
  split; [reflexivity|]. split; [reflexivity|].
  exact (proj1 (proj2 (flag_D_inert KProblem true "boom" [] rt_ex rt_ex w_cfg
                         (mkDiag "default" 3 "" "" "" false true)
                         eq_refl eq_refl))).
Defined.

(** X17.  [Logger(sect)] returns a handle that did not exist before,
    with section [sect], stack depth 2, stderr enabled, no overrides
    and [debugAll] off, and leaves every other handle as it was; so a
    Debug call on the new handle is governed by the configuration
    alone: suppressed when the debug map has [true] neither for [sect]
    nor for "all", dispatched otherwise. *)
Theorem Logger_then_Debug (sect : string) (c : Config) (format : string)
    (args : list value) (rt rt0 : Runtime) (w : World) :
  pkg_config w = Some c ->
  exists n w1,
    Logger sect rt0 w = Ok n w1 [] /\
    heap w !! n = None /\
    heap w1 !! n = Some (mkDiag sect 2 "" "" "" false true) /\
    (forall p, p <> n -> heap w1 !! p = heap w !! p) /\
    globals w1 = globals w /\
    (~ maps_true (Debug c) sect -> ~ maps_true (Debug c) "all" ->
       Diag_Debug n format args rt w1 = Ok tt w1 []) /\
    (maps_true (Debug c) sect \/ maps_true (Debug c) "all" ->
       Diag_Debug n format args rt w1
       = diag (policy KDebug) n format args rt w1).
Proof.
  intros Hc.
  set (dv := mkDiag sect 2 "" "" "" false true).
  destruct (alloc_run dv rt0 w) as [Ha Hn].
  set (n := fresh (dom (heap w))) in *.
  set (w1 := set_heap (<[n := dv]> (heap w)) w) in *.
  assert (Hd1 : heap w1 !! n = Some dv) by apply lookup_insert_eq.
  assert (Hc1 : pkg_config w1 = Some c) by exact Hc.
  pose proof (Diag_Debug_run n dv c format args rt w1 Hd1 Hc1) as Hrun.
  pose proof (quiet_suppressed dv c) as Hq.
  exists n, w1. split; [exact Ha|]. split; [exact Hn|]. split; [exact Hd1|].
  split; [intros p Hp; apply lookup_insert_ne; congruence|].
  split; [reflexivity|]. split.
  - intros H1 H2. rewrite Hrun.
    assert (Hs : quiet dv c = true) by (apply Hq; repeat split; assumption).
    rewrite Hs. reflexivity.
  - intros H. rewrite Hrun. clear Hq.
    destruct (quiet dv c) eqn:E; [|reflexivity].
    apply (proj1 (quiet_suppressed dv c)) in E.
    destruct E as (_ & E1 & E2). destruct H; contradiction.
Qed.

Lemma Logger_then_Debug_witness :
  pkg_config w_cfg = Some cfg_ex /\
  exists n w1,
    Logger "encabulator" rt_ex w_cfg = Ok n w1 [] /\
    trace_of (Diag_Debug n "deplenation: %v" [VInt 3] rt_ex w1)
    = [EvStderr "pkg/file.go:42 Handler(): deplenation: 3"].
Proof.
  split; [reflexivity|].
  destruct (Logger_then_Debug "encabulator" cfg_ex "deplenation: %v" [VInt 3]
              rt_ex rt_ex w_cfg eq_refl)
    as (n & w1 & H1 & _ & H3 & _ & _ & _ & H7).
  exists n, w1. split; [exact H1|].
  rewrite H7.
  - assert (Hw : w1 = set_heap (<[n := mkDiag "encabulator" 2 "" "" "" false true]>
                                  (heap w_cfg)) w_cfg /\ n = 1%nat).
    { vm_compute in H1. injection H1 as <- <-. split; reflexivity. }
    destruct Hw as [-> ->]. vm_compute. reflexivity.
  - left. exists {[ "encabulator"%string := true ]}. split; reflexivity.
Defined.

(** X18.  Two loggers created one after the other are two distinct
    handles, each with its own section: assigning a flag of one in
    place does not show in the other. *)
Theorem Loggers_distinct (s1 s2 : string) (x : bool) (rt : Runtime) (w : World) :
  exists a b w',
    (a <~ Logger s1; b <~ Logger s2; _ <~ Diag_SetDebugAll a x; ret (a, b)) rt w
    = Ok (a, b) w' [] /\
    a <> b /\
    heap w !! a = None /\ heap w !! b = None /\
    heap w' !! a = Some (mkDiag s1 2 "" "" "" x true) /\
    heap w' !! b = Some (mkDiag s2 2 "" "" "" false true) /\
    (forall p, p <> a -> p <> b -> heap w' !! p = heap w !! p).
Proof.
  set (d1 := mkDiag s1 2 "" "" "" false true).
  set (d2 := mkDiag s2 2 "" "" "" false true).
  destruct (alloc_run d1 rt w) as [Ha Hna].
  set (a := fresh (dom (heap w))) in *.
  set (w1 := set_heap (<[a := d1]> (heap w)) w) in *.
  destruct (alloc_run d2 rt w1) as [Hb Hnb].
  set (b := fresh (dom (heap w1))) in *.
  set (w2 := set_heap (<[b := d2]> (heap w1)) w1) in *.
  assert (Hab : a <> b).
  { intros E. rewrite <- E in Hnb. subst w1. cbn [heap set_heap] in Hnb.
    rewrite lookup_insert_eq in Hnb. discriminate. }
  assert (Ha2 : heap w2 !! a = Some d1).
  { subst w2 w1. cbn [heap set_heap].
    rewrite lookup_insert_ne by congruence. apply lookup_insert_eq. }
  assert (Hs : Diag_SetDebugAll a x rt w2
               = Ok tt (set_heap (<[a := set_debugAll x d1]> (heap w2)) w2) []).
  { unfold Diag_SetDebugAll.
    rewrite (bind_Ok_nil _ _ rt w2 d1 w2 (load_live _ _ _ _ Ha2)).
    apply (store_live a d1 _ rt w2 Ha2). }
  exists a, b, (set_heap (<[a := set_debugAll x d1]> (heap w2)) w2).
  split.
  { unfold Logger at 1. rewrite (bind_Ok_nil _ _ rt w a w1 Ha).
    unfold Logger at 1. rewrite (bind_Ok_nil _ _ rt w1 b w2 Hb).
    rewrite (bind_Ok_nil _ _ rt w2 tt _ Hs). reflexivity. }
  split; [exact Hab|]. split; [exact Hna|]. split.
  { subst w1. cbn [heap set_heap] in Hnb.
    rewrite lookup_insert_ne in Hnb by congruence. exact Hnb. }
  subst w2 w1. cbn [heap set_heap]. split; [apply lookup_insert_eq|]. split.
  - rewrite lookup_insert_ne by congruence. apply lookup_insert_eq.
  - intros p Hpa Hpb. rewrite !lookup_insert_ne by congruence. reflexivity.
Qed.

(** X19.  [SetDebugAll(true)] forces Debug through: after it, a Debug
    call on the handle is a dispatch with the Debug bundle whatever the
    configuration holds, even with a nil debug map or no configuration
    at all, which is then not read. *)
Theorem debugAll_forces (d : loc) (dv : Diag) (format : string)
    (args : list value) (rt rt0 : Runtime) (w : World) :
  heap w !! d = Some dv ->
  let w1 := set_heap (<[d := set_debugAll true dv]> (heap w)) w in
  Diag_SetDebugAll d true rt0 w = Ok tt w1 [] /\
  (forall cfg : option Config,
     Diag_Debug d format args rt (set_config cfg w1)
     = diag (policy KDebug) d format args rt (set_config cfg w1)).
Proof.
  intros Hd w1. split.
  - unfold Diag_SetDebugAll.
    rewrite (bind_Ok_nil _ _ rt0 w dv w (load_live _ _ _ _ Hd)).
    apply (store_live d dv _ rt0 w Hd).
  - intros cfg. unfold Diag_Debug.
    set (w2 := set_config cfg w1).
    assert (Hd2 : heap w2 !! d = Some (set_debugAll true dv))
      by apply lookup_insert_eq.
    rewrite (bind_Ok_nil getConfig _ rt w2 (pkg_config w2) w2) by reflexivity.
    rewrite (bind_Ok_nil _ _ rt w2 _ w2 (load_live _ _ _ _ Hd2)).
    cbn [debugAll set_debugAll negb].
    rewrite (bind_Ok_nil _ _ rt w2 false w2) by reflexivity.
    reflexivity.
Qed.

Lemma debugAll_forces_witness :
  heap w_ex !! 0%nat = Some (mkDiag "default" 3 "" "" "" false true) /\
  trace_of (Diag_Debug 0%nat "deplenation" [] rt_ex
              (set_config None
                 (set_heap (<[0%nat := set_debugAll true
                                          (mkDiag "default" 3 "" "" "" false true)]>
                              (heap w_ex)) w_ex)))
  = [EvStderr "pkg/file.go:42 Handler(): deplenation"].
Proof.
  split; [reflexivity|].
  exact (eq_trans
           (f_equal trace_of
              (proj2 (debugAll_forces 0%nat (mkDiag "default" 3 "" "" "" false true)
                        "deplenation" [] rt_ex rt_ex w_ex eq_refl) None))
           eq_refl).
Defined.
